(** * gridded: grid-type resolution and attribute discovery

    A shallow embedding of [gridded/gridded.py]: the class [Grid] with its two
    children [Grid_U] (unstructured) and [Grid_S] (structured), the search for
    node / face arrays in a netCDF dataset, the choice of the grid class, grid
    equality and the reconstruction of a grid from a saved dict.

    Python values are modelled as follows.
    - A numpy array is an integer dtype and a shape together with its
      elements in C (row-major) order.  Elements are integers of [Z];
      arithmetic on an array wraps around at the bounds of its dtype.
      Floating point arrays are not part of the model.
    - A dict that is only read and written by key ([init_args], attributes of
      an object) is a [gmap string _]; a dict that is iterated
      ([dataset.variables], [grid_topology]) is an association list in
      insertion order, read by first match.
    - A raised exception is the [Raise] branch of [result].
    The code is read as Python 3 runs it. *)

From Stdlib Require Import ZArith List String Ascii Bool Lia.
From stdpp Require Import base option gmap strings list fin_maps pretty.

Local Open Scope string_scope.
Local Open Scope Z_scope.

#[local] Set Warnings "-clear-no-such-hyp".

(** ** Exceptions and the error monad *)

Inductive exn : Type :=
| ValueError (msg : string)
| KeyError (key : string)
| IndexError (msg : string)
| AttributeError (msg : string)
| TypeError (msg : string)
| IOError (msg : string).

Inductive result (A : Type) : Type :=
| Ok (a : A)
| Raise (e : exn).

Arguments Ok {A} a.
Arguments Raise {A} e.

#[global] Instance result_ret : MRet result := fun _ a => Ok a.

#[global] Instance result_bind : MBind result := fun _ _ k r =>
  match r with
  | Ok a => k a
  | Raise e => Raise e
  end.

(** [try: body except ValueError: handler] *)
Definition try_except_ValueError {A : Type} (body handler : result A) : result A :=
  match body with
  | Raise (ValueError _) => handler
  | other => other
  end.

(** ** numpy arrays *)

(** The integer dtypes of numpy. *)
Inductive np_dtype : Type :=
| int8 | int16 | int32 | int64
| uint8 | uint16 | uint32 | uint64.

Definition dtype_bits (t : np_dtype) : Z :=
  match t with
  | int8 | uint8 => 8
  | int16 | uint16 => 16
  | int32 | uint32 => 32
  | int64 | uint64 => 64
  end.

Definition dtype_signed (t : np_dtype) : bool :=
  match t with
  | int8 | int16 | int32 | int64 => true
  | uint8 | uint16 | uint32 | uint64 => false
  end.

Definition dtype_min (t : np_dtype) : Z :=
  if dtype_signed t then - 2 ^ (dtype_bits t - 1) else 0.

Definition dtype_max (t : np_dtype) : Z :=
  if dtype_signed t then 2 ^ (dtype_bits t - 1) - 1 else 2 ^ dtype_bits t - 1.

(** The value an integer takes when it is stored with dtype [t]: the one
    congruent modulo [2 ^ bits] that lies between [dtype_min] and
    [dtype_max]. *)
Definition wrap (t : np_dtype) (x : Z) : Z :=
  (x - dtype_min t) mod 2 ^ dtype_bits t + dtype_min t.

Record ndarray : Type := mk_ndarray {
  dtype : np_dtype;
  shape : list nat;
  data : list Z
}.

Definition prod_shape (s : list nat) : nat := fold_right Nat.mul 1%nat s.

(** An array holds as many elements as its shape announces. *)
Definition wf_ndarray (a : ndarray) : Prop :=
  length (data a) = prod_shape (shape a).

(** Offset of a multi-index in C order (Horner scheme over the axes). *)
Fixpoint ravel_from (acc : nat) (s idx : list nat) : nat :=
  match s, idx with
  | d :: s', i :: idx' => ravel_from (acc * d + i) s' idx'
  | _, _ => acc
  end.

Definition ravel (s idx : list nat) : nat := ravel_from 0 s idx.

(** Multi-index of an offset in C order. *)
Fixpoint unravel (s : list nat) (k : nat) : list nat :=
  match s with
  | [] => []
  | d :: s' => (k / prod_shape s')%nat :: unravel s' (k mod prod_shape s')%nat
  end.

(** [a[i0, i1, ...]] for an in-range full index. *)
Definition getitem (a : ndarray) (idx : list nat) : Z :=
  nth (ravel (shape a) idx) (data a) 0.

(** [a.T]: the axes are reversed, for any number of dimensions. *)
Definition transpose (a : ndarray) : ndarray :=
  let s' := rev (shape a) in
  {| dtype := dtype a;
     shape := s';
     data := map (fun k => getitem a (rev (unravel s' k)))
                 (seq 0 (prod_shape s')) |}.

(** [a - c], element-wise, for a Python integer [c] that the dtype of [a]
    can hold, as 1 is: the result keeps the dtype and wraps around. *)
Definition sub_scalar (a : ndarray) (c : Z) : ndarray :=
  {| dtype := dtype a; shape := shape a;
     data := map (fun x => wrap (dtype a) (x - c)) (data a) |}.

(** [a.reshape(-1, 2)]: numpy refuses an odd number of elements. *)
Definition reshape_m1_2 (a : ndarray) : result ndarray :=
  let n := length (data a) in
  if (n mod 2 =? 0)%nat
  then Ok {| dtype := dtype a; shape := [(n / 2)%nat; 2%nat]; data := data a |}
  else Raise (ValueError "cannot reshape array into shape (2)").

(** [v[:, c]] of a two-dimensional array [v]. *)
Definition column (v : ndarray) (c : nat) : ndarray :=
  match shape v with
  | [n; m] =>
      {| dtype := dtype v;
         shape := [n];
         data := map (fun i => getitem v [i; c]) (seq 0 n) |}
  | _ => v
  end.

(** [a.shape[0]]: a zero-dimensional array has an empty shape tuple. *)
Definition shape0 (a : ndarray) : result nat :=
  match shape a with
  | d :: _ => Ok d
  | [] => Raise (IndexError "tuple index out of range")
  end.

(** [np.any(s != s2)] for two arrays of the same shape. *)
Definition any_ne (s s2 : ndarray) : bool :=
  existsb (fun p => negb (fst p =? snd p)) (combine (data s) (data s2)).

Definition shape_ne (s s2 : ndarray) : bool :=
  negb (bool_decide (shape s = shape s2)).

(** ** Strings *)

(** [str.lower] on the ASCII letters.  Every grid-type alias below is plain
    lower-case ASCII without the letter k, and no character outside ASCII
    lower-cases to such a letter, so membership of [s.lower()] in the alias
    lists is decided by the ASCII letters of [s] alone. *)
Definition lower_ascii (c : ascii) : ascii :=
  let n := nat_of_ascii c in
  if ((65 <=? n) && (n <=? 90))%nat then ascii_of_nat (n + 32) else c.

Fixpoint lower (s : string) : string :=
  match s with
  | EmptyString => EmptyString
  | String c s' => String (lower_ascii c) (lower s')
  end.

(** [x in names] for a list of strings. *)
Definition str_in (x : string) (names : list string) : bool :=
  existsb (String.eqb x) names.

(** [sub in s] for two strings. *)
Fixpoint contains (sub s : string) : bool :=
  String.prefix sub s ||
  match s with
  | EmptyString => false
  | String _ s' => contains sub s'
  end.

(** ** Python values, dicts and the dataset *)

Inductive pyval : Type :=
| VNone
| VStr (s : string)
| VInt (z : Z)
| VArr (a : ndarray).

(** A dict in insertion order: [k in d], [d.get(k)] and [d[k]]. *)
Fixpoint dict_get {V : Type} (d : list (string * V)) (k : string) : option V :=
  match d with
  | [] => None
  | (k', v) :: d' => if String.eqb k k' then Some v else dict_get d' k
  end.

Definition dict_in {V : Type} (k : string) (d : list (string * V)) : bool :=
  match dict_get d k with Some _ => true | None => false end.

Definition dict_getitem {V : Type} (d : list (string * V)) (k : string) : result V :=
  match dict_get d k with
  | Some v => Ok v
  | None => Raise (KeyError k)
  end.

(** The value under the first of [names] that is a key of [d]. *)
Fixpoint first_present {V : Type} (names : list string) (d : list (string * V))
    : option V :=
  match names with
  | [] => None
  | n :: rest =>
      match dict_get d n with
      | Some v => Some v
      | None => first_present rest d
      end
  end.

(** A pair of names is not complete in [d]. *)
Definition not_both {V : Type} (d : list (string * V)) (n1 n2 : string) : Prop :=
  dict_get d n1 = None \/ dict_get d n2 = None.

(** A netCDF variable: its attributes and the array read by [var[:]]. *)
Record NcVariable : Type := mk_NcVariable {
  var_attrs : gmap string pyval;
  var_data : ndarray
}.

(** A netCDF dataset: global attributes and [variables], a dict from
    variable name to variable. *)
Record NcDataset : Type := mk_NcDataset {
  ds_attrs : gmap string pyval;
  variables : list (string * NcVariable)
}.

(** The objects [hasattr] is asked about in this file. *)
Inductive pyobj : Type :=
| PyStr (s : string)
| PyVar (v : NcVariable).

(** The public members of [str]; none of them is a netCDF attribute name. *)
Definition str_members : list string :=
  ["capitalize"; "casefold"; "center"; "count"; "encode"; "endswith";
   "expandtabs"; "find"; "format"; "format_map"; "index"; "isalnum";
   "isalpha"; "isascii"; "isdecimal"; "isdigit"; "isidentifier"; "islower";
   "isnumeric"; "isprintable"; "isspace"; "istitle"; "isupper"; "join";
   "ljust"; "lower"; "lstrip"; "maketrans"; "partition"; "removeprefix";
   "removesuffix"; "replace"; "rfind"; "rindex"; "rjust"; "rpartition";
   "rsplit"; "rstrip"; "split"; "splitlines"; "startswith"; "strip";
   "swapcase"; "title"; "translate"; "upper"; "zfill"].

Definition hasattr (o : pyobj) (name : string) : bool :=
  match o with
  | PyStr _ => str_in name str_members
  | PyVar v => bool_decide (is_Some (var_attrs v !! name))
  end.

(** [name_part in o.attr], where [o.attr] is known to exist. *)
Definition attr_contains (sub : string) (o : pyobj) (name : string) : bool :=
  match o with
  | PyStr _ => false
  | PyVar v =>
      match var_attrs v !! name with
      | Some (VStr s) => contains sub s
      | _ => false
      end
  end.

Inductive grid_class : Type := Grid_U | Grid_S.

(** ** Attribute discovery and grid-type resolution *)

Definition gf_vars_t : Type := list (string * NcVariable).

Definition node_attrs : string * string := ("node_lon", "node_lat").
Definition node_coord_names : list (string * string) :=
  [("node_lon", "node_lat"); ("lon", "lat"); ("lon_psi", "lat_psi")].
Definition composite_node_names : list string := ["nodes"; "node"].

Definition sgrid_names : list string :=
  ["sgrid"; "pygrid_s"; "staggered"; "curvilinear"; "roms"].
Definition ugrid_names : list string :=
  ["ugrid"; "pygrid_u"; "triangular"; "unstructured"].

(** [for n1, n2 in names: if n1 in gf_vars and n2 in gf_vars: ...; break] *)
Fixpoint find_coord_pair (names : list (string * string)) (attr : string * string)
    (gf_vars : gf_vars_t) (init_args : gmap string pyval) : gmap string pyval :=
  match names with
  | [] => init_args
  | (n1, n2) :: rest =>
      match dict_get gf_vars n1, dict_get gf_vars n2 with
      | Some v1, Some v2 =>
          <[attr.2 := VArr (var_data v2)]>
            (<[attr.1 := VArr (var_data v1)]> init_args)
      | _, _ => find_coord_pair rest attr gf_vars init_args
      end
  end.

(** The two assignments made from a composite node array. *)
Definition split_nodes (v : ndarray) (init_args : gmap string pyval)
    : gmap string pyval :=
  <[node_attrs.2 := VArr (column v 1)]>
    (<[node_attrs.1 := VArr (column v 0)]> init_args).

(** [for n in composite_node_names: if n in gf_vars: ...; break] *)
Fixpoint find_composite (names : list string) (gf_vars : gf_vars_t)
    (init_args : gmap string pyval) : result (gmap string pyval) :=
  match names with
  | [] => Ok init_args
  | n :: rest =>
      match dict_get gf_vars n with
      | Some var =>
          v ← reshape_m1_2 (var_data var);
          Ok (split_nodes v init_args)
      | None => find_composite rest gf_vars init_args
      end
  end.

(** [for n, v in grid_topology.items(): ...] of [Grid]: the composite
    branch reads [gf_vars[n]], the variable called like the logical name. *)
Fixpoint topology_node_loop (items : list (string * string)) (gf_vars : gf_vars_t)
    (init_args : gmap string pyval) : result (gmap string pyval) :=
  match items with
  | [] => Ok init_args
  | (n, v) :: rest =>
      init_args ←
        (if str_in n [node_attrs.1; node_attrs.2]
         then var ← dict_getitem gf_vars v;
              Ok (<[n := VArr (var_data var)]> init_args)
         else Ok init_args);
      init_args ←
        (if str_in n composite_node_names
         then var ← dict_getitem gf_vars n;
              v' ← reshape_m1_2 (var_data var);
              Ok (split_nodes v' init_args)
         else Ok init_args);
      topology_node_loop rest gf_vars init_args
  end.

(** [for n in face_var_names: if n in gf_vars: ...; break]; a name that
    [grid_topology.get] did not find is [None], which is no key of
    [gf_vars]. *)
Fixpoint find_faces (names : list (option string)) (gf_vars : gf_vars_t)
    (init_args : gmap string pyval) : gmap string pyval :=
  match names with
  | [] => init_args
  | n :: rest =>
      match n ≫= dict_get gf_vars with
      | Some var => <["faces" := VArr (var_data var)]> init_args
      | None => find_faces rest gf_vars init_args
      end
  end.

(** The per-attribute loop of [Grid_S] over center, edge1 and edge2. *)
Definition structured_coord_names
    : list ((string * string) * list (string * string)) :=
  [(("center_lon", "center_lat"),
    [("center_lon", "center_lat"); ("lon_rho", "lat_rho")]);
   (("edge1_lon", "edge1_lat"),
    [("edge1_lon", "edge1_lat"); ("lon_u", "lat_u")]);
   (("edge2_lon", "edge2_lat"),
    [("edge2_lon", "edge2_lat"); ("lon_v", "lat_v")])].

Definition structured_attrs : list string :=
  ["center_lon"; "center_lat"; "edge1_lon"; "edge1_lat"; "edge2_lon"; "edge2_lat"].

Fixpoint topology_structured_loop (items : list (string * string))
    (gf_vars : gf_vars_t) (init_args : gmap string pyval) : gmap string pyval :=
  match items with
  | [] => init_args
  | (n, v) :: rest =>
      let init_args :=
        if str_in n structured_attrs
        then match dict_get gf_vars v with
             | Some var => <[n := VArr (var_data var)]> init_args
             | None => init_args
             end
        else init_args in
      topology_structured_loop rest gf_vars init_args
  end.

Section Resolver.

(** Opening a file is the work of netCDF4; the resolver only needs what it
    returns for the value passed as file name. *)
Variable nc_open : pyval -> result NcDataset.

(** Modelled from the spec: [utilities.get_dataset] is imported by the source
    file but defined elsewhere.  A dataset that is already open is passed
    through; otherwise the file is opened. *)
Definition get_dataset (ncfile : pyval) (dataset : option NcDataset)
    : result NcDataset :=
  match dataset with
  | Some d => Ok d
  | None => nc_open ncfile
  end.

Definition Grid__find_required_grid_attrs (filename : pyval)
    (dataset : option NcDataset) (grid_topology : option (list (string * string)))
    : result (gmap string pyval * gf_vars_t) :=
  gf_vars ← match dataset with
            | Some d => Ok (variables d)
            | None => d ← get_dataset filename None; Ok (variables d)
            end;
  let init_args : gmap string pyval := <["filename" := filename]> ∅ in
  match grid_topology with
  | None =>
      let init_args := find_coord_pair node_coord_names node_attrs gf_vars init_args in
      init_args ←
        (if bool_decide (is_Some (init_args !! node_attrs.1))
         then Ok init_args
         else find_composite composite_node_names gf_vars init_args);
      if bool_decide (is_Some (init_args !! node_attrs.1))
      then Ok (init_args, gf_vars)
      else Raise (ValueError "Unable to find node coordinates.")
  | Some topo =>
      init_args ← topology_node_loop topo gf_vars init_args;
      Ok (init_args, gf_vars)
  end.

Definition Grid_U__find_required_grid_attrs (filename : pyval)
    (dataset : option NcDataset) (grid_topology : option (list (string * string)))
    : result (gmap string pyval * gf_vars_t) :=
  '(init_args, gf_vars) ← Grid__find_required_grid_attrs filename dataset grid_topology;
  let face_var_names : list (option string) :=
    match grid_topology with
    | Some topo => [dict_get topo "faces"]
    | None => [Some "faces"; Some "tris"; Some "nv"; Some "ele"]
    end in
  let init_args := find_faces face_var_names gf_vars init_args in
  match init_args !! "faces" with
  | Some (VArr f) =>
      d ← shape0 f;
      if (d =? 3)%nat
      then Ok (<["faces" := VArr (sub_scalar (transpose f) 1)]> init_args, gf_vars)
      else Ok (init_args, gf_vars)
  | Some _ => Raise (AttributeError "shape")
  | None => Raise (ValueError "Unable to find faces variable")
  end.

Definition Grid_S__find_required_grid_attrs (filename : pyval)
    (dataset : option NcDataset) (grid_topology : option (list (string * string)))
    : result (gmap string pyval * gf_vars_t) :=
  '(init_args, gf_vars) ← Grid__find_required_grid_attrs filename dataset grid_topology;
  match grid_topology with
  | None =>
      Ok (fold_left (fun args '(attr, names) => find_coord_pair names attr gf_vars args)
                    structured_coord_names init_args, gf_vars)
  | Some topo => Ok (topology_structured_loop topo gf_vars init_args, gf_vars)
  end.

(** The loop runs over [gf.variables], a dict: it visits the keys. *)
Definition Grid__find_topology_var (filename : pyval)
    (dataset : option NcDataset) : result (option pyobj) :=
  gf ← get_dataset filename dataset;
  let gts := filter (fun v => hasattr v "cf_role" && attr_contains "topology" v "cf_role")
                    (map (fun kv => PyStr kv.1) (variables gf)) in
  match gts with
  | [] => Ok None
  | g :: _ => Ok (Some g)
  end.

(** [hasattr(dataset, 'grid_type') and dataset.grid_type in sgrid_names +
    ugrid_names]: the attribute when the test holds.  The test compares the
    attribute as it is written, without lower-casing. *)
Definition dataset_grid_type (dataset : NcDataset) : option string :=
  match ds_attrs dataset !! "grid_type" with
  | Some (VStr gt) => if str_in gt (sgrid_names ++ ugrid_names) then Some gt else None
  | _ => None
  end.

Definition Grid__get_grid_type (dataset : NcDataset)
    (grid_topology : option (list (string * string))) (grid_type : option string)
    : result grid_class :=
  match grid_type with
  | Some gt =>
      if str_in (lower gt) sgrid_names then Ok Grid_S
      else if str_in (lower gt) ugrid_names then Ok Grid_U
      else Raise (ValueError "Specified grid_type not recognized/supported")
  | None =>
      match grid_topology with
      | Some topo =>
          if dict_in "faces" topo
             || str_in (lower (default "notype" (dict_get topo "grid_type"))) ugrid_names
          then Ok Grid_U
          else Ok Grid_S
      | None =>
          match dataset_grid_type dataset with
          | Some gt =>
              if str_in (lower gt) ugrid_names then Ok Grid_U else Ok Grid_S
          | None =>
              topology ← Grid__find_topology_var VNone (Some dataset);
              match topology with
              | Some t =>
                  if hasattr t "node_coordinates" && negb (hasattr t "node_dimensions")
                  then Ok Grid_U
                  else Ok Grid_S
              | None =>
                  try_except_ValueError
                    (_ ← Grid_U__find_required_grid_attrs VNone (Some dataset) None;
                     Ok Grid_U)
                    (_ ← Grid_S__find_required_grid_attrs VNone (Some dataset) None;
                     Ok Grid_S)
              end
          end
      end
  end.

(** ** Grid objects *)

(** An instance: its identity (what [is] compares), its class and its
    attributes. *)
Record GridObj : Type := mk_GridObj {
  obj_addr : nat;
  obj_class : grid_class;
  obj_attrs : gmap string pyval
}.

(** The mutable state construction touches: the next free identity and the
    class-level counters [_def_count] of the two classes. *)
Record pystate : Type := mk_pystate {
  next_addr : nat;
  def_count_U : nat;
  def_count_S : nat
}.

Definition class_name (cls : grid_class) : string :=
  match cls with
  | Grid_U => "Grid_U"
  | Grid_S => "Grid_S"
  end.

Definition def_count (st : pystate) (cls : grid_class) : nat :=
  match cls with
  | Grid_U => def_count_U st
  | Grid_S => def_count_S st
  end.

(** [cls._def_count = f(cls._def_count)].  The only decrement, in
    [new_from_dict], follows an increment of the same class. *)
Definition set_def_count (st : pystate) (cls : grid_class) (f : nat -> nat) : pystate :=
  match cls with
  | Grid_U => {| next_addr := next_addr st; def_count_U := f (def_count_U st);
                 def_count_S := def_count_S st |}
  | Grid_S => {| next_addr := next_addr st; def_count_U := def_count_U st;
                 def_count_S := f (def_count_S st) |}
  end.

(** The constructors of [pyugrid.UGrid] and [pysgrid.SGrid] live in other
    files: [base_init cls kwargs] stands for the attributes they set. *)
Variable base_init : grid_class -> gmap string pyval -> result (gmap string pyval).

(** The property [id] of an instance is inherited from elsewhere as well. *)
Variable get_id : GridObj -> result pyval.

(** [Grid.__init__] with [init_args] as keywords: it binds [filename] and
    hands the other keywords to the base class. *)
Definition Grid__init__ (st : pystate) (cls : grid_class)
    (init_args : gmap string pyval) : result (GridObj * pystate) :=
  let filename := default VNone (init_args !! "filename") in
  let kwargs := delete "filename" init_args in
  attrs ← base_init cls kwargs;
  let name :=
    match kwargs !! "name" with
    | Some n => n
    | None => VStr (class_name cls +:+ "_" +:+ pretty (def_count st cls))
    end in
  let attrs :=
    <["filename" := filename]>
      (<["obj_type" := VStr "<class 'gridded.gridded.Grid'>"]>
         (<["name" := name]> attrs)) in
  Ok ({| obj_addr := next_addr st; obj_class := cls; obj_attrs := attrs |},
      set_def_count {| next_addr := S (next_addr st);
                       def_count_U := def_count_U st;
                       def_count_S := def_count_S st |} cls S).

(** What [object.__new__] raises when it is handed keywords. *)
Definition keywords_refused : exn :=
  TypeError "object.__new__() takes exactly one argument (the type to instantiate)".

(** [Grid.__new__].  A class other than the two children ([cls] is [None]:
    [Grid] itself in particular) is replaced by the child the keywords call
    for.  The instance is then asked of [super(type(cls), cls).__new__],
    which is [object.__new__] because [type(cls)] is [type]: it takes no
    keyword from a class that defines [__new__], and otherwise makes an
    instance of [cls].  The result is the class of the new instance. *)
Definition Grid__new__ (cls : option grid_class) (kwargs : gmap string pyval)
    : result grid_class :=
  let cls :=
    match cls with
    | Some c => c
    | None => if bool_decide (is_Some (kwargs !! "faces")) then Grid_U else Grid_S
    end in
  if bool_decide (kwargs = ∅) then Ok cls else Raise keywords_refused.

(** A call of a grid class with keywords: [__new__], then [__init__] on the
    instance it returned. *)
Definition Grid_call (st : pystate) (cls : option grid_class)
    (kwargs : gmap string pyval) : result (GridObj * pystate) :=
  cls ← Grid__new__ cls kwargs;
  Grid__init__ st cls kwargs.

Definition find_required_grid_attrs_of (cls : grid_class) :=
  match cls with
  | Grid_U => Grid_U__find_required_grid_attrs
  | Grid_S => Grid_S__find_required_grid_attrs
  end.

Definition Grid_from_netCDF (st : pystate) (filename : pyval)
    (dataset : option NcDataset) (grid_type : option string)
    (grid_topology : option (list (string * string)))
    : result (GridObj * pystate) :=
  gf ← match filename with
       | VNone =>
           match dataset with
           | Some d => Ok d
           | None => Raise (ValueError "No filename or dataset provided")
           end
       | _ => get_dataset filename dataset
       end;
  cls ← Grid__get_grid_type gf grid_topology grid_type;
  '(init_args, gf_vars) ← find_required_grid_attrs_of cls filename dataset grid_topology;
  Grid_call st (Some cls) init_args.


Definition setattr (rv : GridObj) (n : string) (v : pyval) : GridObj :=
  {| obj_addr := obj_addr rv; obj_class := obj_class rv;
     obj_attrs := <[n := v]> (obj_attrs rv) |}.




(** The instance has no attribute [n], or has it set to [None]. *)
Definition lacks (o : GridObj) (n : string) : Prop :=
  obj_attrs o !! n = None \/ obj_attrs o !! n = Some VNone.

(** [Grid.__eq__]: the loop over [('nodes', 'faces')]. *)
Definition is_set (o : GridObj) (n : string) : bool :=
  match obj_attrs o !! n with
  | Some VNone | None => false
  | Some _ => true
  end.

Fixpoint eq_loop (names : list string) (self o : GridObj) : result bool :=
  match names with
  | [] => Ok true
  | n :: rest =>
      if is_set self n && is_set o n
      then match obj_attrs self !! n, obj_attrs o !! n with
           | Some (VArr s), Some (VArr s2) =>
               if shape_ne s s2 || any_ne s s2 then Ok false
               else eq_loop rest self o
           | _, _ => Raise (AttributeError "shape")
           end
      else eq_loop rest self o
  end.

Definition Grid__eq__ (self o : GridObj) : result bool :=
  if (obj_addr self =? obj_addr o)%nat then Ok true
  else eq_loop ["nodes"; "faces"] self o.

(** ** The dataset facade *)

(** The wrapper class [Variable] and [pyugrid.read_netcdf.find_variables]
    are defined in other files. *)
Variable VarObj : Type.
Variable Variable_ : NcDataset -> string -> result VarObj.
Variable find_variables : NcDataset -> pyval -> result (list string).

(** What [Dataset.__init__] stores as [filename]: [None], or the bound
    method [filepath] of the open dataset. *)
Inductive dataset_filename : Type :=
| NoFilename
| FilepathOf (d : NcDataset).

Record DatasetObj : Type := mk_DatasetObj {
  dso_nc_dataset : option NcDataset;
  dso_filename : dataset_filename;
  dso_grid : option GridObj;
  dso_variables : option (gmap string VarObj)
}.

(** [for name in var_names: self.variables[name] = Variable(...)] *)
Fixpoint wrap_variables (nc_dataset : NcDataset) (var_names : list string)
    (variables : gmap string VarObj) : result (gmap string VarObj) :=
  match var_names with
  | [] => Ok variables
  | name :: rest =>
      v ← Variable_ nc_dataset name;
      wrap_variables nc_dataset rest (<[name := v]> variables)
  end.

(** [Dataset.__init__].  The mesh name is read from the argument [grid],
    not from the grid just loaded. *)
Definition Dataset__init__ (st : pystate) (ncfile : pyval)
    (grid : option GridObj) (variables : option (gmap string VarObj))
    (grid_topology : option (list (string * string)))
    : result (DatasetObj * pystate) :=
  match ncfile with
  | VNone =>
      Ok ({| dso_nc_dataset := None; dso_filename := NoFilename;
             dso_grid := grid; dso_variables := variables |}, st)
  | _ =>
      nc_dataset ← get_dataset ncfile None;
      '(g, st) ← Grid_from_netCDF st VNone (Some nc_dataset) None grid_topology;
      mesh_name ← match grid with
                  | None => Raise (AttributeError "mesh_name")
                  | Some o =>
                      match obj_attrs o !! "mesh_name" with
                      | Some m => Ok m
                      | None => Raise (AttributeError "mesh_name")
                      end
                  end;
      var_names ← find_variables nc_dataset mesh_name;
      vars ← wrap_variables nc_dataset var_names ∅;
      Ok ({| dso_nc_dataset := Some nc_dataset;
             dso_filename := FilepathOf nc_dataset;
             dso_grid := Some g; dso_variables := Some vars |}, st)
  end.

End Resolver.

(** The dataset without its global attribute [grid_type]. *)
Definition without_grid_type (ds : NcDataset) : NcDataset :=
  {| ds_attrs := delete "grid_type" (ds_attrs ds); variables := variables ds |}.

(** Only filename, node_lon and node_lat are bound. *)
Definition base_keys_only (args : gmap string pyval) : Prop :=
  forall k, k ≠ "filename" -> k ≠ "node_lon" -> k ≠ "node_lat" -> args !! k = None.

(** The first pair of [names] with both names in [d]. *)
Fixpoint first_complete_pair {V : Type} (names : list (string * string))
    (d : list (string * V)) : option (V * V) :=
  match names with
  | [] => None
  | (n1, n2) :: rest =>
      match dict_get d n1, dict_get d n2 with
      | Some v1, Some v2 => Some (v1, v2)
      | _, _ => first_complete_pair rest d
      end
  end.

(** The array of the variable a mapping gives for the logical name [n]. *)
Definition mapped_array (topo : list (string * string)) (vars : gf_vars_t)
    (n : string) : option pyval :=
  v ← dict_get topo n; var ← dict_get vars v; Some (VArr (var_data var)).

(** ** Sample datasets *)

Definition arr_2d (n m : nat) (l : list Z) : ndarray :=
  {| dtype := int64; shape := [n; m]; data := l |}.

Definition arr_1d (l : list Z) : ndarray :=
  {| dtype := int64; shape := [length l]; data := l |}.

Definition plain_var (a : ndarray) : NcVariable := {| var_attrs := ∅; var_data := a |}.

Definition marker_var (attrs : gmap string pyval) : NcVariable :=
  {| var_attrs := attrs;
     var_data := {| dtype := int32; shape := []; data := [0] |} |}.

(** No file can be opened: the datasets below are passed as open handles. *)
Definition no_file : pyval -> result NcDataset :=
  fun _ => Raise (IOError "No such file or directory").

(** A UGRID mesh-topology variable: node coordinates, no node dimensions. *)
Definition mesh_var : NcVariable :=
  marker_var (<["cf_role" := VStr "mesh_topology"]>
                (<["node_coordinates" := VStr "x y"]> ∅)).

(** An SGRID grid-topology variable: node coordinates and node dimensions. *)
Definition sgrid_var : NcVariable :=
  marker_var (<["cf_role" := VStr "grid_topology"]>
                (<["node_coordinates" := VStr "lon lat"]>
                   (<["node_dimensions" := VStr "xi eta"]> ∅))).

(** Only the mesh-topology variable. *)
Definition ds_mesh_only : NcDataset :=
  {| ds_attrs := ∅; variables := [("mesh", mesh_var)] |}.

(** A grid-topology variable next to lon, lat and a (3, 2) array nv. *)
Definition ds_sgrid_nv : NcDataset :=
  {| ds_attrs := ∅;
     variables := [("grid", sgrid_var);
                   ("lon", plain_var (arr_1d [10; 20; 30]));
                   ("lat", plain_var (arr_1d [40; 50; 60]));
                   ("nv", plain_var (arr_2d 3 2 [1; 2; 2; 3; 3; 1]))] |}.

(** Only a connectivity array. *)
Definition ds_nv_only : NcDataset :=
  {| ds_attrs := ∅;
     variables := [("nv", plain_var (arr_2d 3 2 [1; 2; 2; 3; 3; 1]))] |}.

(** A composite node array stored under a name of its own. *)
Definition ds_mesh_nodes : NcDataset :=
  {| ds_attrs := ∅;
     variables := [("mesh_nodes", plain_var (arr_2d 2 2 [1; 2; 3; 4]))] |}.

(** The same next to another variable that happens to be called nodes. *)
Definition ds_two_node_arrays : NcDataset :=
  {| ds_attrs := ∅;
     variables := [("nodes", plain_var (arr_2d 2 2 [9; 9; 9; 9]));
                   ("mesh_nodes", plain_var (arr_2d 2 2 [1; 2; 3; 4]))] |}.

(** A triangle mesh with lon, lat and a (3, 2) connectivity array. *)
Definition ds_tri : NcDataset :=
  {| ds_attrs := ∅;
     variables := [("lon", plain_var (arr_1d [10; 20; 30]));
                   ("lat", plain_var (arr_1d [40; 50; 60]));
                   ("nv", plain_var (arr_2d 3 2 [1; 2; 2; 3; 3; 1]))] |}.

(** The same mesh with an unsigned byte connectivity that counts from 0. *)
Definition uint8_nv : ndarray := {| dtype := uint8; shape := [3%nat; 1%nat]; data := [0; 1; 2] |}.

Definition ds_tri_uint8 : NcDataset :=
  {| ds_attrs := ∅;
     variables := [("lon", plain_var (arr_1d [10; 20; 30]));
                   ("lat", plain_var (arr_1d [40; 50; 60]));
                   ("nv", plain_var uint8_nv)] |}.

(** A file system with the single file grid.nc. *)
Definition one_file : pyval -> result NcDataset :=
  fun f =>
    match f with
    | VStr "grid.nc" => Ok ds_tri
    | _ => Raise (IOError "No such file or directory")
    end.

(** Base classes that keep their keywords as attributes, and an [id] read
    from the attribute [_id]. *)
Definition keep_kwargs : grid_class -> gmap string pyval -> result (gmap string pyval) :=
  fun _ kwargs => Ok kwargs.


Definition st0 : pystate := {| next_addr := 0; def_count_U := 0; def_count_S := 0 |}.



(** Node coordinates only. *)
Definition ds_lonlat : NcDataset :=
  {| ds_attrs := ∅;
     variables := [("lon", plain_var (arr_1d [10; 20; 30]));
                   ("lat", plain_var (arr_1d [40; 50; 60]))] |}.

(** Node coordinates and a variable nv that holds a scalar. *)
Definition ds_scalar_nv : NcDataset :=
  {| ds_attrs := ∅;
     variables := [("lon", plain_var (arr_1d [10; 20; 30]));
                   ("lat", plain_var (arr_1d [40; 50; 60]));
                   ("nv", plain_var {| dtype := int32; shape := []; data := [7] |})] |}.

(** The same node coordinates under a global attribute [grid_type]. *)
Definition ds_typed (gt : string) : NcDataset :=
  {| ds_attrs := <["grid_type" := VStr gt]> ∅; variables := variables ds_lonlat |}.

(** A ROMS file: psi, rho and u points, no v points. *)
Definition ds_roms : NcDataset :=
  {| ds_attrs := ∅;
     variables := [("lon_psi", plain_var (arr_2d 1 2 [1; 2]));
                   ("lat_psi", plain_var (arr_2d 1 2 [3; 4]));
                   ("lon_rho", plain_var (arr_2d 1 2 [5; 6]));
                   ("lat_rho", plain_var (arr_2d 1 2 [7; 8]));
                   ("lon_u", plain_var (arr_2d 1 2 [9; 10]));
                   ("lat_u", plain_var (arr_2d 1 2 [11; 12]))] |}.

(** A mapping onto [ds_roms] whose entry center_lat names no variable. *)
Definition topo_roms : list (string * string) :=
  [("node_lon", "lon_psi"); ("node_lat", "lat_psi");
   ("center_lon", "lon_rho"); ("center_lat", "lat_center")].

(** What the base search finds in [ds_tri]. *)
Definition tri_args : gmap string pyval :=
  <["node_lat" := VArr (arr_1d [40; 50; 60])]>
    (<["node_lon" := VArr (arr_1d [10; 20; 30])]> (<["filename" := VNone]> ∅)).

(** A grid that only carries a mesh name, wrappers that are the names of
    the variables, and a search that finds lon and lat for every mesh. *)
Definition grid_mesh : GridObj :=
  {| obj_addr := 7; obj_class := Grid_U;
     obj_attrs := <["mesh_name" := VStr "mesh"]> ∅ |}.

Definition name_wrapper : NcDataset -> string -> result string :=
  fun _ name => Ok name.

Definition lon_lat_found : NcDataset -> pyval -> result (list string) :=
  fun _ _ => Ok ["lon"; "lat"].


(** Two unstructured grids with the same faces and different nodes. *)
Definition tri_faces : ndarray := arr_2d 1 3 [0; 1; 2].

Definition grid_a : GridObj :=
  {| obj_addr := 0; obj_class := Grid_U;
     obj_attrs := <["nodes" := VArr (arr_2d 3 2 [0; 0; 1; 0; 0; 1])]>
                    (<["faces" := VArr tri_faces]> ∅) |}.

Definition grid_b : GridObj :=
  {| obj_addr := 1; obj_class := Grid_U;
     obj_attrs := <["nodes" := VArr (arr_2d 3 2 [5; 5; 6; 5; 5; 6])]>
                    (<["faces" := VArr tri_faces]> ∅) |}.

(** Two structured grids with different node coordinates. *)
Definition sgrid_a : GridObj :=
  {| obj_addr := 2; obj_class := Grid_S;
     obj_attrs := <["node_lon" := VArr (arr_2d 1 2 [10; 20])]>
                    (<["node_lat" := VArr (arr_2d 1 2 [30; 40])]> ∅) |}.

Definition sgrid_b : GridObj :=
  {| obj_addr := 3; obj_class := Grid_S;
     obj_attrs := <["node_lon" := VArr (arr_2d 2 2 [1; 2; 3; 4])]>
                    (<["node_lat" := VArr (arr_2d 2 2 [5; 6; 7; 8])]> ∅) |}.

(** * Properties *)

(** ** Helper lemmas on strings and dicts *)

Lemma str_in_spec (x : string) (names : list string) :
  str_in x names = true <-> x ∈ names.
Proof.
  unfold str_in. rewrite existsb_exists, list_elem_of_In. split.
  - intros (y & Hy & Heq). apply String.eqb_eq in Heq. by subst.
  - intros Hx. exists x. split; [done | apply String.eqb_refl].
Qed.

Lemma str_in_false (x : string) (names : list string) :
  str_in x names = false <-> x ∉ names.
Proof.
  rewrite <- str_in_spec. destruct (str_in x names); split; congruence.
Qed.

Lemma dict_get_is_Some {V : Type} (d : list (string * V)) (k : string) :
  is_Some (dict_get d k) <-> k ∈ d.*1.
Proof.
  induction d as [| [k' v] d IH]; simpl.
  - split; [by intros [? ?] | by intros ?%elem_of_nil].
  - destruct (String.eqb_spec k k') as [-> | Hne].
    + split; [intros _; apply elem_of_cons; by left | by eauto].
    + rewrite IH, elem_of_cons. split; [by right | by intros [? | ?]].
Qed.

Lemma dict_in_spec {V : Type} (d : list (string * V)) (k : string) :
  dict_in k d = true <-> k ∈ d.*1.
Proof.
  rewrite <- dict_get_is_Some. unfold dict_in.
  destruct (dict_get d k); split; intros H; try done; by destruct H.
Qed.

Lemma lower_ascii_idemp (c : ascii) : lower_ascii (lower_ascii c) = lower_ascii c.
Proof.
  destruct c as [[] [] [] [] [] [] [] []]; reflexivity.
Qed.

Lemma lower_idemp (s : string) : lower (lower s) = lower s.
Proof.
  induction s as [| c s IH]; simpl; [done |].
  by rewrite lower_ascii_idemp, IH.
Qed.

(** ** Helper lemmas on arrays *)

Lemma nth_map_seq (f : nat -> Z) (n k : nat) (d : Z) :
  (k < n)%nat -> nth k (map f (seq 0 n)) d = f k.
Proof.
  intros Hk. rewrite (nth_indep _ d (f 0%nat)) by (by rewrite length_map, length_seq).
  rewrite map_nth. by rewrite seq_nth.
Qed.

Lemma ravel_2d (n m i j : nat) : ravel [n; m] [i; j] = (i * m + j)%nat.
Proof. unfold ravel. simpl. lia. Qed.

Lemma unravel_2d (n m i j : nat) :
  (j < m)%nat -> unravel [n; m] (i * m + j) = [i; j].
Proof.
  intros Hj. unfold unravel, prod_shape. simpl fold_right.
  rewrite !Nat.mul_1_r, Nat.div_1_r.
  assert (Hd : ((i * m + j) / m = i)%nat).
  { rewrite Nat.div_add_l by lia. rewrite Nat.div_small by lia. lia. }
  assert (Hm : ((i * m + j) mod m = j)%nat).
  { rewrite Nat.add_comm, Nat.Div0.mod_add. by apply Nat.mod_small. }
  by rewrite Hd, Hm.
Qed.

Lemma shape_transpose (a : ndarray) : shape (transpose a) = rev (shape a).
Proof. done. Qed.

(** On a two-dimensional array [a.T[i, j] = a[j, i]]. *)
Lemma transpose_2d (a : ndarray) (n m i j : nat) :
  shape a = [n; m] -> (i < m)%nat -> (j < n)%nat ->
  getitem (transpose a) [i; j] = getitem a [j; i].
Proof.
  intros Hs Hi Hj. unfold transpose. rewrite Hs. change (rev [n; m]) with [m; n].
  unfold getitem at 1. cbn [shape data]. rewrite ravel_2d.
  rewrite nth_map_seq.
  - cbv beta. by rewrite unravel_2d.
  - unfold prod_shape. simpl. nia.
Qed.

Lemma length_transpose (a : ndarray) :
  length (data (transpose a)) = prod_shape (rev (shape a)).
Proof. unfold transpose. cbn [data]. by rewrite length_map, length_seq. Qed.

Lemma wrap_in_range (t : np_dtype) (x : Z) :
  dtype_min t <= x <= dtype_max t -> wrap t x = x.
Proof.
  unfold wrap, dtype_min, dtype_max.
  destruct t; cbn [dtype_signed dtype_bits]; intros Hx;
    rewrite Z.mod_small; lia.
Qed.

Lemma getitem_sub_scalar (a : ndarray) (c : Z) (idx : list nat) :
  (ravel (shape a) idx < length (data a))%nat ->
  getitem (sub_scalar a c) idx = wrap (dtype a) (getitem a idx - c).
Proof.
  intros Hlt. unfold getitem, sub_scalar. cbn [shape data].
  rewrite (nth_indep _ 0 (wrap (dtype a) (0 - c))) by (by rewrite length_map).
  by rewrite (map_nth (fun x => wrap (dtype a) (x - c))).
Qed.

Lemma reshape_m1_2_of_N2 (a : ndarray) (N : nat) :
  wf_ndarray a -> shape a = [N; 2%nat] ->
  reshape_m1_2 a = Ok {| dtype := dtype a; shape := [N; 2%nat]; data := data a |}.
Proof.
  unfold wf_ndarray, reshape_m1_2. intros Hwf Hs. rewrite Hs in Hwf.
  unfold prod_shape in Hwf. simpl in Hwf. rewrite Hwf.
  rewrite Nat.Div0.mod_mul. change (0 =? 0)%nat with true. cbv iota.
  by rewrite Nat.div_mul by lia.
Qed.

(** [v[:, c][i] = v[i, c]] on a two-dimensional array. *)
Lemma column_2d (v : ndarray) (n m c i : nat) :
  shape v = [n; m] -> (i < n)%nat ->
  shape (column v c) = [n] /\ getitem (column v c) [i] = getitem v [i; c].
Proof.
  intros Hs Hi. unfold column. rewrite Hs. split; [done |].
  unfold getitem at 1. cbn [shape data].
  change (ravel [n] [i]) with (0 * n + i)%nat. rewrite Nat.mul_0_l, Nat.add_0_l.
  by rewrite nth_map_seq.
Qed.

Lemma shape_column_2d (v : ndarray) (n m c : nat) :
  shape v = [n; m] -> shape (column v c) = [n].
Proof. intros Hs. unfold column. by rewrite Hs. Qed.





Lemma is_set_false (o : GridObj) (n : string) : is_set o n = false <-> lacks o n.
Proof.
  unfold is_set, lacks. destruct (obj_attrs o !! n) as [[] |]; naive_solver.
Qed.

Section Properties.

Variable nc_open : pyval -> result NcDataset.
Variable base_init : grid_class -> gmap string pyval -> result (gmap string pyval).
Variable get_id : GridObj -> result pyval.

(** ** Explicit grid type *)

(** C3: an explicit [grid_type] string alone decides the class.  Its
    lower-case form is looked up in the structured aliases, then in the
    unstructured aliases, and anything else raises the "not
    recognized/supported" error; two spellings that differ only in case give
    the same answer, and neither the dataset nor a topology mapping is
    looked at. *)
Theorem explicit_grid_type_decides (gt : string) :
  (forall dataset grid_topology,
     lower gt ∈ ["sgrid"; "pygrid_s"; "staggered"; "curvilinear"; "roms"] ->
     Grid__get_grid_type nc_open dataset grid_topology (Some gt) = Ok Grid_S) /\
  (forall dataset grid_topology,
     lower gt ∈ ["ugrid"; "pygrid_u"; "triangular"; "unstructured"] ->
     Grid__get_grid_type nc_open dataset grid_topology (Some gt) = Ok Grid_U) /\
  (forall dataset grid_topology,
     lower gt ∉ ["sgrid"; "pygrid_s"; "staggered"; "curvilinear"; "roms";
                 "ugrid"; "pygrid_u"; "triangular"; "unstructured"] ->
     Grid__get_grid_type nc_open dataset grid_topology (Some gt) =
       Raise (ValueError "Specified grid_type not recognized/supported")) /\
  (forall gt' dataset grid_topology,
     lower gt' = lower gt ->
     Grid__get_grid_type nc_open dataset grid_topology (Some gt') =
     Grid__get_grid_type nc_open dataset grid_topology (Some gt)) /\
  (forall dataset dataset' grid_topology grid_topology',
     Grid__get_grid_type nc_open dataset grid_topology (Some gt) =
     Grid__get_grid_type nc_open dataset' grid_topology' (Some gt)) /\
  (forall dataset grid_topology,
     Grid__get_grid_type nc_open dataset grid_topology (Some "roms") = Ok Grid_S).
Proof.
  assert (Hdisj : forall x, x ∈ ugrid_names -> x ∉ sgrid_names).
  { intros x. unfold ugrid_names, sgrid_names. set_unfold. naive_solver congruence. }
  split; [| split; [| split; [| split; [| split]]]].
  - intros dataset topo Hin%str_in_spec. unfold Grid__get_grid_type.
    fold sgrid_names in Hin. by rewrite Hin.
  - intros dataset topo Hin. unfold Grid__get_grid_type.
    fold ugrid_names in Hin.
    pose proof (Hdisj _ Hin) as Hs%str_in_false.
    apply str_in_spec in Hin. by rewrite Hs, Hin.
  - intros dataset topo Hnot. unfold Grid__get_grid_type.
    assert (Hs : str_in (lower gt) sgrid_names = false).
    { apply str_in_false. intros Hs. apply Hnot.
      unfold sgrid_names in Hs. set_solver. }
    assert (Hu : str_in (lower gt) ugrid_names = false).
    { apply str_in_false. intros Hu. apply Hnot.
      unfold ugrid_names in Hu. set_solver. }
    by rewrite Hs, Hu.
  - intros gt' dataset topo Heq. unfold Grid__get_grid_type. by rewrite Heq.
  - done.
  - done.
Qed.

(** ** Topology mapping *)

(** C4: with no explicit [grid_type], a [grid_topology] mapping selects
    [Grid_U] exactly when it has a key 'faces' or its 'grid_type' entry is,
    up to case, one of the unstructured aliases; it selects [Grid_S]
    otherwise, and the dataset plays no part. *)
Theorem topology_mapping_decides (topo : list (string * string)) :
  let unstructured :=
    "faces" ∈ topo.*1 \/
    exists gt, dict_get topo "grid_type" = Some gt /\
               lower gt ∈ ["ugrid"; "pygrid_u"; "triangular"; "unstructured"] in
  (forall dataset,
     Grid__get_grid_type nc_open dataset (Some topo) None = Ok Grid_U <-> unstructured) /\
  (forall dataset,
     Grid__get_grid_type nc_open dataset (Some topo) None = Ok Grid_S <-> ~ unstructured) /\
  (forall dataset dataset',
     Grid__get_grid_type nc_open dataset (Some topo) None =
     Grid__get_grid_type nc_open dataset' (Some topo) None).
Proof.
  intros unstructured.
  assert (Hcond : dict_in "faces" topo
                  || str_in (lower (default "notype" (dict_get topo "grid_type")))
                            ugrid_names = true <-> unstructured).
  { unfold unstructured. rewrite orb_true_iff, dict_in_spec, str_in_spec.
    apply or_iff_compat_l. split.
    - intros Hin. destruct (dict_get topo "grid_type") as [gt |] eqn:Hgt.
      + by exists gt.
      + simpl in Hin. unfold ugrid_names in Hin. set_unfold. naive_solver.
    - intros (gt & -> & Hin). done. }
  repeat split.
  - unfold Grid__get_grid_type. intros H. apply Hcond. by destruct (_ || _).
  - unfold Grid__get_grid_type. intros H%Hcond. by rewrite H.
  - unfold Grid__get_grid_type. intros H Hu%Hcond. by rewrite Hu in H.
  - unfold Grid__get_grid_type. intros H. destruct (_ || _) eqn:E; [| done].
    exfalso. by apply H, Hcond.
Qed.

(** ** Topology variable *)

Lemma str_keys_are_no_topology (vars : gf_vars_t) :
  filter (fun v => hasattr v "cf_role" && attr_contains "topology" v "cf_role")
         (map (fun kv => PyStr kv.1) vars) = [].
Proof.
  induction vars as [| [k v] vars IH]; [done |].
  rewrite map_cons, filter_cons. simpl hasattr.
  by replace (str_in "cf_role" str_members) with false by (by vm_compute).
Qed.

Lemma find_topology_var_None (filename : pyval) (ds : NcDataset) :
  Grid__find_topology_var nc_open filename (Some ds) = Ok None.
Proof.
  unfold Grid__find_topology_var. simpl. by rewrite str_keys_are_no_topology.
Qed.

(** C2: the search for a topology variable walks over the keys of
    [variables], which are strings, so it finds nothing and the
    [node_coordinates] / [node_dimensions] test is never reached.  A dataset
    whose only variable is a mesh topology (with [node_coordinates], without
    [node_dimensions]) is not resolved to [Grid_U] but raises, and a dataset
    with a grid topology carrying [node_dimensions] is resolved to [Grid_U]
    because of its variable names. *)
Theorem topology_variable_never_consulted :
  (forall ds, Grid__find_topology_var nc_open VNone (Some ds) = Ok None) /\
  (dict_get (variables ds_mesh_only) "mesh" = Some mesh_var /\
   hasattr (PyVar mesh_var) "cf_role" = true /\
   attr_contains "topology" (PyVar mesh_var) "cf_role" = true /\
   hasattr (PyVar mesh_var) "node_coordinates" = true /\
   hasattr (PyVar mesh_var) "node_dimensions" = false /\
   Grid__get_grid_type nc_open ds_mesh_only None None =
     Raise (ValueError "Unable to find node coordinates.")) /\
  (dict_get (variables ds_sgrid_nv) "grid" = Some sgrid_var /\
   hasattr (PyVar sgrid_var) "cf_role" = true /\
   attr_contains "topology" (PyVar sgrid_var) "cf_role" = true /\
   hasattr (PyVar sgrid_var) "node_dimensions" = true /\
   Grid__get_grid_type nc_open ds_sgrid_nv None None = Ok Grid_U).
Proof.
  split; [exact (find_topology_var_None VNone) |].
  split.
  - repeat (split; [by vm_compute |]).
    unfold Grid__get_grid_type. rewrite find_topology_var_None.
    by vm_compute.
  - repeat (split; [by vm_compute |]).
    unfold Grid__get_grid_type. rewrite find_topology_var_None.
    by vm_compute.
Qed.

(** Whatever [find_coord_pair] binds, it binds both attributes. *)
Lemma find_coord_pair_both names attr gf_vars (init_args : gmap string pyval) :
  attr.1 ≠ attr.2 ->
  init_args !! attr.1 = None ->
  is_Some (find_coord_pair names attr gf_vars init_args !! attr.1) ->
  is_Some (find_coord_pair names attr gf_vars init_args !! attr.2).
Proof.
  intros Hne Hnone. induction names as [| [n1 n2] names IH]; simpl.
  - rewrite Hnone. by intros [? ?].
  - destruct (dict_get gf_vars n1), (dict_get gf_vars n2); try done.
    intros _. rewrite lookup_insert_eq. by eexists.
Qed.

Lemma find_composite_both names gf_vars (init_args args : gmap string pyval) :
  init_args !! "node_lon" = None ->
  find_composite names gf_vars init_args = Ok args ->
  is_Some (args !! "node_lon") ->
  is_Some (args !! "node_lat").
Proof.
  intros Hnone. induction names as [| n names IH]; simpl.
  - intros [= <-]. rewrite Hnone. by intros [? ?].
  - destruct (dict_get gf_vars n) as [var |]; [| done].
    destruct (reshape_m1_2 (var_data var)) as [v | e]; simpl; [| done].
    intros [= <-] _. unfold split_nodes. simpl.
    rewrite lookup_insert_eq. by eexists.
Qed.

(** Without a topology mapping, a result is returned only with both node
    coordinate arrays in it. *)
Lemma absent_topology_checks_nodes filename dataset args gf_vars :
  Grid__find_required_grid_attrs nc_open filename dataset None = Ok (args, gf_vars) ->
  is_Some (args !! "node_lon") /\ is_Some (args !! "node_lat").
Proof.
  unfold Grid__find_required_grid_attrs.
  destruct (match dataset with Some d => _ | None => _ end) as [vars | e];
    cbn [mbind result_bind]; [| done].
  set (a0 := <["filename" := filename]> (∅ : gmap string pyval)).
  set (a1 := find_coord_pair node_coord_names node_attrs vars a0).
  assert (Ha0 : a0 !! "node_lon" = None) by done.
  case_bool_decide as Hlon; cbn [mbind result_bind].
  - rewrite bool_decide_true by done. intros [= <- <-]. split; [done |].
    by apply (find_coord_pair_both node_coord_names node_attrs vars a0).
  - destruct (find_composite composite_node_names vars a1) as [a2 | e] eqn:Hcomp;
      cbn [mbind result_bind]; [| done].
    case_bool_decide as Hlon2; [| done].
    intros [= <- <-]. split; [done |].
    apply (find_composite_both composite_node_names vars a1 a2); [| done | done].
    destruct (a1 !! "node_lon") eqn:E; [| done]. exfalso; apply Hlon. by eexists.
Qed.

(** C6: with a topology mapping that names no node coordinates, the search
    returns a result without [node_lon] and [node_lat] instead of raising;
    the check that raises "Unable to find node coordinates." is made only
    when there is no mapping.  Here the mapping is [{'faces': 'nv'}] over a
    dataset holding the array nv: the class is [Grid_U] and the arguments for
    its constructor carry faces and no node coordinate. *)
Theorem topology_mapping_skips_node_check :
  Grid__get_grid_type nc_open ds_nv_only (Some [("faces", "nv")]) None = Ok Grid_U /\
  match Grid_U__find_required_grid_attrs nc_open VNone (Some ds_nv_only)
          (Some [("faces", "nv")]) with
  | Ok (args, _) =>
      args !! "node_lon" = None /\ args !! "node_lat" = None /\
      args !! "faces" = Some (VArr (arr_2d 2 3 [0; 1; 2; 1; 2; 0]))
  | Raise _ => False
  end /\
  Grid_U__find_required_grid_attrs nc_open VNone (Some ds_nv_only) None =
    Raise (ValueError "Unable to find node coordinates.").
Proof.
  split; [done |]. split; [| by vm_compute].
  vm_compute. by repeat split.
Qed.

(** C7: the entry for a composite name reads the dataset variable called like
    the logical name, not the one the mapping gives.  With
    [{'nodes': 'mesh_nodes'}] the lookup of nodes raises [KeyError] when the
    dataset has only mesh_nodes, and takes the columns of the other array
    when a variable nodes exists too.  The entries for [node_lon] and
    [node_lat] do read the mapped variable. *)
Theorem composite_entry_ignores_mapped_name :
  Grid__find_required_grid_attrs nc_open VNone (Some ds_mesh_nodes)
    (Some [("nodes", "mesh_nodes")]) = Raise (KeyError "nodes") /\
  match Grid__find_required_grid_attrs nc_open VNone (Some ds_two_node_arrays)
          (Some [("nodes", "mesh_nodes")]) with
  | Ok (args, _) =>
      args !! "node_lon" = Some (VArr (arr_1d [9; 9])) /\
      args !! "node_lat" = Some (VArr (arr_1d [9; 9])) /\
      column (arr_2d 2 2 [1; 2; 3; 4]) 0 = arr_1d [1; 3] /\
      column (arr_2d 2 2 [1; 2; 3; 4]) 1 = arr_1d [2; 4]
  | Raise _ => False
  end /\
  match Grid__find_required_grid_attrs nc_open VNone (Some ds_sgrid_nv)
          (Some [("node_lon", "lat"); ("node_lat", "lon")]) with
  | Ok (args, _) =>
      args !! "node_lon" = Some (VArr (arr_1d [40; 50; 60])) /\
      args !! "node_lat" = Some (VArr (arr_1d [10; 20; 30]))
  | Raise _ => False
  end.
Proof.
  split; [by vm_compute |]. split; vm_compute; by repeat split.
Qed.

Lemma split_nodes_lon v (init_args : gmap string pyval) :
  split_nodes v init_args !! "node_lon" = Some (VArr (column v 0)).
Proof.
  unfold split_nodes. cbn [node_attrs fst snd].
  rewrite lookup_insert_ne by done. apply lookup_insert_eq.
Qed.

Lemma split_nodes_lat v (init_args : gmap string pyval) :
  split_nodes v init_args !! "node_lat" = Some (VArr (column v 1)).
Proof. unfold split_nodes. cbn [node_attrs fst snd]. apply lookup_insert_eq. Qed.

(** The search without a topology mapping, once the pair loop has bound the
    two attributes. *)
Lemma base_of_pair filename ds (lon lat : ndarray) :
  find_coord_pair node_coord_names node_attrs (variables ds)
    (<["filename" := filename]> ∅) =
    <["node_lat" := VArr lat]> (<["node_lon" := VArr lon]> (<["filename" := filename]> ∅)) ->
  exists args,
    Grid__find_required_grid_attrs nc_open filename (Some ds) None =
      Ok (args, variables ds) /\
    args !! "node_lon" = Some (VArr lon) /\ args !! "node_lat" = Some (VArr lat).
Proof.
  intros Hpair. eexists. unfold Grid__find_required_grid_attrs.
  cbn [mbind result_bind]. rewrite Hpair. cbn [node_attrs fst snd].
  assert (Hlon : forall a : gmap string pyval,
            (<["node_lat" := VArr lat]> (<["node_lon" := VArr lon]> a)) !! "node_lon"
            = Some (VArr lon)).
  { intros a. rewrite lookup_insert_ne by done. apply lookup_insert_eq. }
  rewrite bool_decide_true by (rewrite Hlon; by eexists).
  cbn [mbind result_bind].
  rewrite bool_decide_true by (rewrite Hlon; by eexists).
  split; [done |]. split; [apply Hlon | apply lookup_insert_eq].
Qed.

Lemma find_coord_pair_skip vars n1 n2 rest attr (init_args : gmap string pyval) :
  not_both vars n1 n2 ->
  find_coord_pair ((n1, n2) :: rest) attr vars init_args =
  find_coord_pair rest attr vars init_args.
Proof.
  intros [H | H]; cbn [find_coord_pair]; rewrite H; [done |].
  by destruct (dict_get vars n1).
Qed.

Lemma find_coord_pair_hit vars n1 n2 v1 v2 rest attr (init_args : gmap string pyval) :
  dict_get vars n1 = Some v1 -> dict_get vars n2 = Some v2 ->
  find_coord_pair ((n1, n2) :: rest) attr vars init_args =
  <[attr.2 := VArr (var_data v2)]> (<[attr.1 := VArr (var_data v1)]> init_args).
Proof. intros H1 H2. cbn [find_coord_pair]. by rewrite H1, H2. Qed.

(** C5: without a topology mapping the pairs node_lon/node_lat, lon/lat and
    lon_psi/lat_psi are tried in this order and the first pair with both
    names in the dataset gives [node_lon] and [node_lat], array for array; so
    a dataset with exactly one of the pairs gets the arrays of that pair.
    When no pair is complete, the first of nodes, node that the dataset has,
    holding an (N, 2) array, gives column 0 as [node_lon] and column 1 as
    [node_lat]. *)
Theorem node_coordinates_by_convention filename ds :
  let vars := variables ds in
  let bound (lon lat : ndarray) :=
    exists args,
      Grid__find_required_grid_attrs nc_open filename (Some ds) None = Ok (args, vars) /\
      args !! "node_lon" = Some (VArr lon) /\ args !! "node_lat" = Some (VArr lat) in
  (forall v1 v2,
     dict_get vars "node_lon" = Some v1 -> dict_get vars "node_lat" = Some v2 ->
     bound (var_data v1) (var_data v2)) /\
  (forall v1 v2,
     not_both vars "node_lon" "node_lat" ->
     dict_get vars "lon" = Some v1 -> dict_get vars "lat" = Some v2 ->
     bound (var_data v1) (var_data v2)) /\
  (forall v1 v2,
     not_both vars "node_lon" "node_lat" -> not_both vars "lon" "lat" ->
     dict_get vars "lon_psi" = Some v1 -> dict_get vars "lat_psi" = Some v2 ->
     bound (var_data v1) (var_data v2)) /\
  (forall n1 n2 v1 v2,
     (n1, n2) ∈ node_coord_names ->
     dict_get vars n1 = Some v1 -> dict_get vars n2 = Some v2 ->
     (forall m1 m2, (m1, m2) ∈ node_coord_names -> (m1, m2) ≠ (n1, n2) ->
        not_both vars m1 m2) ->
     bound (var_data v1) (var_data v2)) /\
  (forall var (N : nat),
     not_both vars "node_lon" "node_lat" -> not_both vars "lon" "lat" ->
     not_both vars "lon_psi" "lat_psi" ->
     dict_get vars "nodes" = Some var \/
       (dict_get vars "nodes" = None /\ dict_get vars "node" = Some var) ->
     wf_ndarray (var_data var) -> shape (var_data var) = [N; 2%nat] ->
     exists lon lat,
       bound lon lat /\ shape lon = [N] /\ shape lat = [N] /\
       forall i : nat, (i < N)%nat ->
         getitem lon [i] = getitem (var_data var) [i; 0%nat] /\
         getitem lat [i] = getitem (var_data var) [i; 1%nat]).
Proof.
  intros vars bound.
  assert (H1 : forall v1 v2,
     dict_get vars "node_lon" = Some v1 -> dict_get vars "node_lat" = Some v2 ->
     bound (var_data v1) (var_data v2)).
  { intros v1 v2 Ha Hb. apply base_of_pair. unfold node_coord_names.
    by rewrite (find_coord_pair_hit _ _ _ v1 v2). }
  assert (H2 : forall v1 v2,
     not_both vars "node_lon" "node_lat" ->
     dict_get vars "lon" = Some v1 -> dict_get vars "lat" = Some v2 ->
     bound (var_data v1) (var_data v2)).
  { intros v1 v2 Hn Ha Hb. apply base_of_pair. unfold node_coord_names.
    rewrite find_coord_pair_skip by done.
    by rewrite (find_coord_pair_hit _ _ _ v1 v2). }
  assert (H3 : forall v1 v2,
     not_both vars "node_lon" "node_lat" -> not_both vars "lon" "lat" ->
     dict_get vars "lon_psi" = Some v1 -> dict_get vars "lat_psi" = Some v2 ->
     bound (var_data v1) (var_data v2)).
  { intros v1 v2 Hn Hn' Ha Hb. apply base_of_pair. unfold node_coord_names.
    rewrite !find_coord_pair_skip by done.
    by rewrite (find_coord_pair_hit _ _ _ v1 v2). }
  split; [done |]. split; [done |]. split; [done |]. split.
  - intros n1 n2 v1 v2 Hin Ha Hb Hothers.
    assert (Hmem : forall m1 m2, (m1, m2) ∈ node_coord_names -> (m1, m2) ≠ (n1, n2) ->
                     not_both vars m1 m2) by done.
    unfold node_coord_names in Hin.
    apply elem_of_cons in Hin as [[= -> ->] | Hin]; [by apply H1 |].
    apply elem_of_cons in Hin as [[= -> ->] | Hin].
    { apply H2; [| done | done]. apply Hmem; [| done].
      unfold node_coord_names. set_solver. }
    apply elem_of_cons in Hin as [[= -> ->] | Hin]; [| by apply elem_of_nil in Hin].
    apply H3; [| | done | done]; (apply Hmem; [| done]);
      unfold node_coord_names; set_solver.
  - intros var N Hn1 Hn2 Hn3 Hcomp Hwf Hshape.
    set (v := {| dtype := dtype (var_data var); shape := [N; 2%nat];
                 data := data (var_data var) |}).
    exists (column v 0), (column v 1).
    assert (Hfc : find_composite composite_node_names vars
                    (<["filename" := filename]> ∅) =
                  Ok (split_nodes v (<["filename" := filename]> ∅))).
    { unfold composite_node_names. cbn [find_composite].
      destruct Hcomp as [Hc | [Hc Hc']].
      - rewrite Hc. by rewrite (reshape_m1_2_of_N2 _ N).
      - rewrite Hc, Hc'. by rewrite (reshape_m1_2_of_N2 _ N). }
    split; [| split; [| split]].
    + eexists. unfold Grid__find_required_grid_attrs.
      cbn [mbind result_bind]. unfold node_coord_names.
      rewrite !find_coord_pair_skip by done. cbn [find_coord_pair].
      fold vars. rewrite bool_decide_false by (by intros [? ?]).
      rewrite Hfc. cbn [mbind result_bind].
      rewrite bool_decide_true by (rewrite split_nodes_lon; by eexists).
      split; [done |]. split; [apply split_nodes_lon | apply split_nodes_lat].
    + by apply (shape_column_2d v N 2).
    + by apply (shape_column_2d v N 2).
    + intros i Hi.
      destruct (column_2d v N 2 0 i eq_refl Hi) as [_ ->].
      destruct (column_2d v N 2 1 i eq_refl Hi) as [_ ->].
      unfold getitem. by rewrite Hshape.
Qed.

(** ** Faces *)

Lemma find_faces_first_present names gf_vars (init_args : gmap string pyval) :
  find_faces (map Some names) gf_vars init_args =
  match first_present names gf_vars with
  | Some var => <["faces" := VArr (var_data var)]> init_args
  | None => init_args
  end.
Proof.
  induction names as [| n names IH]; [done |].
  cbn [map find_faces first_present mbind option_bind].
  by destruct (dict_get gf_vars n).
Qed.

(** C1, as the code has it: without a topology mapping, let [var] be the
    variable found under the first of faces, tris, nv, ele that the dataset
    has, and let the node coordinates resolve.  If the array of [var] has
    shape (3, N), the stored faces array [r] has shape (N, 3) and the dtype
    of the source, and [r[i][j]] is [source[j][i] - 1] taken in that dtype,
    for [i < N] and [j < 3]: it wraps around at the bounds of the dtype and
    is [source[j][i] - 1] wherever the dtype can hold that value.  If the
    first dimension is not 3, the array is stored as it is. *)
Theorem faces_become_zero_based filename ds args gf_vars var :
  Grid__find_required_grid_attrs nc_open filename (Some ds) None = Ok (args, gf_vars) ->
  first_present ["faces"; "tris"; "nv"; "ele"] (variables ds) = Some var ->
  (forall N : nat, shape (var_data var) = [3%nat; N] ->
     exists r,
       Grid_U__find_required_grid_attrs nc_open filename (Some ds) None =
         Ok (<["faces" := VArr r]> args, gf_vars) /\
       shape r = [N; 3%nat] /\
       dtype r = dtype (var_data var) /\
       forall i j : nat, (i < N)%nat -> (j < 3)%nat ->
         getitem r [i; j] =
           wrap (dtype (var_data var)) (getitem (var_data var) [j; i] - 1) /\
         (dtype_min (dtype (var_data var)) <= getitem (var_data var) [j; i] - 1
            <= dtype_max (dtype (var_data var)) ->
          getitem r [i; j] = getitem (var_data var) [j; i] - 1)) /\
  (forall (d : nat) rest, shape (var_data var) = d :: rest -> d ≠ 3%nat ->
     Grid_U__find_required_grid_attrs nc_open filename (Some ds) None =
       Ok (<["faces" := VArr (var_data var)]> args, gf_vars)).
Proof.
  intros Hbase Hvar.
  assert (Hvars : gf_vars = variables ds).
  { revert Hbase. unfold Grid__find_required_grid_attrs. cbn [mbind result_bind].
    destruct (_ : result (gmap string pyval)) as [a |]; cbn [mbind result_bind]; [| done].
    by case_bool_decide; [intros [= _ <-] |]. }
  subst gf_vars.
  assert (Hstep :
    Grid_U__find_required_grid_attrs nc_open filename (Some ds) None =
      (d ← shape0 (var_data var);
       if (d =? 3)%nat
       then Ok (<["faces" := VArr (sub_scalar (transpose (var_data var)) 1)]>
                  (<["faces" := VArr (var_data var)]> args), variables ds)
       else Ok (<["faces" := VArr (var_data var)]> args, variables ds))).
  { unfold Grid_U__find_required_grid_attrs. rewrite Hbase.
    cbn [mbind result_bind].
    rewrite (find_faces_first_present ["faces"; "tris"; "nv"; "ele"]), Hvar.
    by rewrite lookup_insert_eq. }
  split.
  - intros N Hshape. exists (sub_scalar (transpose (var_data var)) 1).
    split; [| split; [| split]].
    + rewrite Hstep. unfold shape0. rewrite Hshape. cbn [mbind result_bind].
      by rewrite Nat.eqb_refl, insert_insert_eq.
    + cbn [sub_scalar shape]. by rewrite shape_transpose, Hshape.
    + done.
    + intros i j Hi Hj.
      assert (Hget : getitem (sub_scalar (transpose (var_data var)) 1) [i; j] =
                     wrap (dtype (var_data var)) (getitem (var_data var) [j; i] - 1)).
      { rewrite getitem_sub_scalar.
        - by rewrite (transpose_2d _ 3 N).
        - rewrite shape_transpose, length_transpose, Hshape.
          change (rev [3%nat; N]) with [N; 3%nat]. rewrite ravel_2d.
          unfold prod_shape. simpl. lia. }
      split; [done |]. intros Hrange. rewrite Hget. by apply wrap_in_range.
  - intros d rest Hshape Hd. rewrite Hstep. unfold shape0. rewrite Hshape.
    cbn [mbind result_bind]. by rewrite (proj2 (Nat.eqb_neq d 3) Hd).
Qed.

(** ** Equality of grids *)

Lemma eq_loop_cons_skip n rest self o :
  lacks self n \/ lacks o n ->
  eq_loop (n :: rest) self o = eq_loop rest self o.
Proof.
  intros H. cbn [eq_loop].
  destruct H as [H%is_set_false | H%is_set_false]; rewrite H; [done |].
  by rewrite andb_false_r.
Qed.



(** C10: equality looks at nodes and faces only.  If for each of the two
    names one of the instances lacks the attribute (or has [None]), the
    instances are equal; and replacing [node_lon] and [node_lat] on either
    side never changes the outcome.  Two structured grids without nodes and
    faces are therefore equal whatever their node coordinates. *)
Theorem equality_ignores_node_coordinates :
  (forall g1 g2,
     lacks g1 "nodes" \/ lacks g2 "nodes" ->
     lacks g1 "faces" \/ lacks g2 "faces" ->
     Grid__eq__ g1 g2 = Ok true) /\
  (forall g1 g2 lon lat lon' lat',
     Grid__eq__ (setattr (setattr g1 "node_lon" lon) "node_lat" lat)
                (setattr (setattr g2 "node_lon" lon') "node_lat" lat') =
     Grid__eq__ g1 g2).
Proof.
  split.
  - intros g1 g2 Hn Hf. unfold Grid__eq__.
    destruct (obj_addr g1 =? obj_addr g2)%nat; [done |].
    by rewrite !eq_loop_cons_skip.
  - intros g1 g2 lon lat lon' lat'. unfold Grid__eq__. cbn [setattr obj_addr].
    destruct (obj_addr g1 =? obj_addr g2)%nat; [done |].
    cbn [eq_loop]. unfold is_set. cbn [setattr obj_attrs].
    by rewrite !lookup_insert_ne.
Qed.

(** ** Reconstruction from a saved dict *)


End Properties.

(** * The properties at sample inputs *)

(** The spelling ROMS is a structured alias, whatever the dataset holds. *)
Lemma explicit_grid_type_decides_witness :
  lower "ROMS" ∈ ["sgrid"; "pygrid_s"; "staggered"; "curvilinear"; "roms"] /\
  Grid__get_grid_type no_file ds_sgrid_nv None (Some "ROMS") = Ok Grid_S.
Proof.
  assert (H : lower "ROMS" ∈ ["sgrid"; "pygrid_s"; "staggered"; "curvilinear"; "roms"]).
  { apply (proj1 (str_in_spec _ _)). reflexivity. }
  split; [exact H |].
  exact (proj1 (explicit_grid_type_decides no_file "ROMS") ds_sgrid_nv None H).
Defined.

(** A mapping with a faces key selects the unstructured class. *)
Lemma topology_mapping_decides_witness :
  "faces" ∈ [("faces", "nv")].*1 /\
  Grid__get_grid_type no_file ds_nv_only (Some [("faces", "nv")]) None = Ok Grid_U.
Proof.
  assert (H : "faces" ∈ [("faces", "nv")].*1).
  { apply (proj1 (dict_in_spec [("faces", "nv")] "faces")). reflexivity. }
  split; [exact H |].
  exact (proj2 (proj1 (topology_mapping_decides no_file [("faces", "nv")]) ds_nv_only)
               (or_introl H)).
Defined.

(** In [ds_tri] the pair lon/lat is the first complete pair. *)
Lemma node_coordinates_by_convention_witness :
  not_both (variables ds_tri) "node_lon" "node_lat" /\
  exists args,
    Grid__find_required_grid_attrs no_file VNone (Some ds_tri) None =
      Ok (args, variables ds_tri) /\
    args !! "node_lon" = Some (VArr (arr_1d [10; 20; 30])) /\
    args !! "node_lat" = Some (VArr (arr_1d [40; 50; 60])).
Proof.
  assert (H : not_both (variables ds_tri) "node_lon" "node_lat") by (left; reflexivity).
  split; [exact H |].
  exact (proj1 (proj2 (node_coordinates_by_convention no_file VNone ds_tri))
               (plain_var (arr_1d [10; 20; 30])) (plain_var (arr_1d [40; 50; 60]))
               H eq_refl eq_refl).
Defined.

(** In [ds_tri] the (3, 2) array nv is stored as a (2, 3) array of the same
    dtype with the indices counted from 0. *)
Lemma faces_become_zero_based_witness :
  exists r,
    Grid_U__find_required_grid_attrs no_file VNone (Some ds_tri) None =
      Ok (<["faces" := VArr r]>
            (<["node_lat" := VArr (arr_1d [40; 50; 60])]>
               (<["node_lon" := VArr (arr_1d [10; 20; 30])]>
                  (<["filename" := VNone]> ∅))), variables ds_tri) /\
    shape r = [2%nat; 3%nat] /\
    dtype r = int64 /\
    forall i j : nat, (i < 2)%nat -> (j < 3)%nat ->
      getitem r [i; j] =
        wrap int64 (getitem (arr_2d 3 2 [1; 2; 2; 3; 3; 1]) [j; i] - 1) /\
      (dtype_min int64 <= getitem (arr_2d 3 2 [1; 2; 2; 3; 3; 1]) [j; i] - 1
         <= dtype_max int64 ->
       getitem r [i; j] = getitem (arr_2d 3 2 [1; 2; 2; 3; 3; 1]) [j; i] - 1).
Proof.
  refine (proj1 (faces_become_zero_based no_file VNone ds_tri _ _
                   (plain_var (arr_2d 3 2 [1; 2; 2; 3; 3; 1])) _ _) 2%nat _).
  - vm_compute. reflexivity.
  - reflexivity.
  - reflexivity.
Defined.

(** The connectivity of [ds_tri_uint8] is an unsigned byte array that counts
    from 0 already: its first index becomes 255, not -1. *)
Lemma faces_wrap_below_zero :
  match Grid_U__find_required_grid_attrs no_file VNone (Some ds_tri_uint8) None with
  | Ok (args, _) =>
      exists r, args !! "faces" = Some (VArr r) /\
                shape r = [1%nat; 3%nat] /\
                getitem r [0%nat; 0%nat] = 255 /\
                getitem uint8_nv [0%nat; 0%nat] - 1 = -1
  | Raise _ => False
  end.
Proof. vm_compute. eexists. repeat split. Qed.



(** Two structured grids with different node coordinates are equal. *)
Lemma equality_ignores_node_coordinates_witness :
  obj_attrs sgrid_a !! "node_lon" ≠ obj_attrs sgrid_b !! "node_lon" /\
  Grid__eq__ sgrid_a sgrid_b = Ok true.
Proof.
  split; [by vm_compute |].
  refine (proj1 equality_ignores_node_coordinates sgrid_a sgrid_b _ _);
    left; left; vm_compute; reflexivity.
Defined.



(** * Further properties *)

Lemma any_ne_sym (s s2 : ndarray) : any_ne s s2 = any_ne s2 s.
Proof.
  unfold any_ne. generalize (data s2). induction (data s) as [| x l IH];
    intros [| y l2]; try done.
  simpl. by rewrite IH, (Z.eqb_sym x y).
Qed.

Lemma shape_ne_sym (s s2 : ndarray) : shape_ne s s2 = shape_ne s2 s.
Proof. unfold shape_ne. f_equal. apply bool_decide_ext. by split. Qed.

Lemma eq_loop_sym names self o : eq_loop names self o = eq_loop names o self.
Proof.
  induction names as [| n names IH]; [done |]. cbn [eq_loop].
  rewrite (andb_comm (is_set self n)), IH.
  destruct (is_set o n && is_set self n); [| done].
  destruct (obj_attrs self !! n) as [[| | | s] |], (obj_attrs o !! n) as [[| | | s2] |];
    try done.
  by rewrite shape_ne_sym, any_ne_sym.
Qed.

Lemma no_known_attribute ds :
  (forall gt, ds_attrs ds !! "grid_type" = Some (VStr gt) ->
              gt ∉ (sgrid_names ++ ugrid_names)%list) ->
  dataset_grid_type ds = None.
Proof.
  intros H. unfold dataset_grid_type.
  destruct (ds_attrs ds !! "grid_type") as [[| gt | |] |]; try done.
  by rewrite (proj2 (str_in_false _ _) (H gt eq_refl)).
Qed.

Section FurtherProperties.

Variable nc_open : pyval -> result NcDataset.
Variable base_init : grid_class -> gmap string pyval -> result (gmap string pyval).
Variable get_id : GridObj -> result pyval.

(** ** Equality *)

(** X1: [__eq__] gives the same answer, or the same error, with its two
    arguments exchanged. *)
Theorem grid_equality_symmetric (g1 g2 : GridObj) :
  Grid__eq__ g1 g2 = Grid__eq__ g2 g1.
Proof.
  unfold Grid__eq__. rewrite (Nat.eqb_sym (obj_addr g1)).
  by rewrite eq_loop_sym.
Qed.

(** X2: [__eq__] is not transitive: an instance without nodes and faces
    equals every instance, also two instances that are unequal to each
    other. *)
Theorem grid_equality_not_transitive (g1 g2 g3 : GridObj) :
  lacks g2 "nodes" -> lacks g2 "faces" ->
  Grid__eq__ g1 g3 = Ok false ->
  Grid__eq__ g1 g2 = Ok true /\ Grid__eq__ g2 g3 = Ok true /\
  Grid__eq__ g1 g3 ≠ Ok true.
Proof.
  intros Hn Hf H13. split; [| split; [| by rewrite H13]].
  - unfold Grid__eq__. destruct (_ =? _)%nat; [done |].
    by rewrite !eq_loop_cons_skip by (by right).
  - unfold Grid__eq__. destruct (_ =? _)%nat; [done |].
    by rewrite !eq_loop_cons_skip by (by left).
Qed.

(** ** Grid type from the dataset *)

Lemma fallback_only (ds : NcDataset) :
  dataset_grid_type ds = None ->
  Grid__get_grid_type nc_open ds None None =
  try_except_ValueError
    (_ ← Grid_U__find_required_grid_attrs nc_open VNone (Some ds) None; Ok Grid_U)
    (_ ← Grid_S__find_required_grid_attrs nc_open VNone (Some ds) None; Ok Grid_S).
Proof.
  intros H. unfold Grid__get_grid_type. rewrite H, find_topology_var_None.
  done.
Qed.

(** X3: without [grid_type] argument and mapping, a dataset attribute
    [grid_type] that is literally one of the aliases decides the class,
    whatever the variables are.  The attribute is compared as written: a
    value outside the lists, an upper-case spelling included, is passed
    over, and the class is the one of the dataset without the attribute. *)
Theorem dataset_attribute_decides (ds : NcDataset) (gt : string) :
  ds_attrs ds !! "grid_type" = Some (VStr gt) ->
  (gt ∈ ugrid_names -> Grid__get_grid_type nc_open ds None None = Ok Grid_U) /\
  (gt ∈ sgrid_names -> Grid__get_grid_type nc_open ds None None = Ok Grid_S) /\
  (gt ∉ (sgrid_names ++ ugrid_names)%list ->
     Grid__get_grid_type nc_open ds None None =
     Grid__get_grid_type nc_open (without_grid_type ds) None None).
Proof.
  intros Hattr.
  assert (Hlow : forall x, x ∈ (sgrid_names ++ ugrid_names)%list -> lower x = x).
  { intros x. unfold sgrid_names, ugrid_names. cbn [app]. set_unfold.
    intros H. repeat (destruct H as [-> | H]; [reflexivity |]). by subst. }
  split; [| split].
  - intros Hin. unfold Grid__get_grid_type, dataset_grid_type. rewrite Hattr.
    rewrite (proj2 (str_in_spec gt (sgrid_names ++ ugrid_names)%list))
      by (apply elem_of_app; by right).
    rewrite Hlow by (apply elem_of_app; by right).
    by rewrite (proj2 (str_in_spec _ _) Hin).
  - intros Hin. unfold Grid__get_grid_type, dataset_grid_type. rewrite Hattr.
    rewrite (proj2 (str_in_spec gt (sgrid_names ++ ugrid_names)%list))
      by (apply elem_of_app; by left).
    rewrite Hlow by (apply elem_of_app; by left).
    assert (Hnu : str_in gt ugrid_names = false).
    { apply str_in_false. revert Hin. unfold sgrid_names, ugrid_names.
      set_unfold. naive_solver congruence. }
    by rewrite Hnu.
  - intros Hnot. rewrite !fallback_only.
    + done.
    + unfold dataset_grid_type, without_grid_type. cbn [ds_attrs].
      by rewrite lookup_delete_eq.
    + unfold dataset_grid_type. rewrite Hattr.
      by rewrite (proj2 (str_in_false _ _) Hnot).
Qed.

(** ** The keys of the base search *)

Lemma base_keys_insert k v (args : gmap string pyval) :
  k = "filename" \/ k = "node_lon" \/ k = "node_lat" ->
  base_keys_only args -> base_keys_only (<[k := v]> args).
Proof.
  intros Hk Hargs k' H1 H2 H3. rewrite lookup_insert_ne; [by apply Hargs |].
  intros ->. naive_solver.
Qed.

Lemma base_keys_find_coord_pair names vars (args : gmap string pyval) :
  base_keys_only args -> base_keys_only (find_coord_pair names node_attrs vars args).
Proof.
  intros Hargs. induction names as [| [n1 n2] names IH]; [done |].
  cbn [find_coord_pair]. destruct (dict_get vars n1); [| done].
  destruct (dict_get vars n2); [| done].
  apply base_keys_insert; [by right; right |].
  apply base_keys_insert; [by right; left | done].
Qed.

Lemma base_keys_split_nodes v (args : gmap string pyval) :
  base_keys_only args -> base_keys_only (split_nodes v args).
Proof.
  intros Hargs. unfold split_nodes.
  apply base_keys_insert; [by right; right |].
  apply base_keys_insert; [by right; left | done].
Qed.

Lemma base_keys_find_composite names vars (args args' : gmap string pyval) :
  base_keys_only args -> find_composite names vars args = Ok args' ->
  base_keys_only args'.
Proof.
  intros Hargs. induction names as [| n names IH]; cbn [find_composite].
  - by intros [= <-].
  - destruct (dict_get vars n) as [var |]; [| done].
    destruct (reshape_m1_2 (var_data var)) as [v | e]; cbn [mbind result_bind];
      [| done].
    intros [= <-]. by apply base_keys_split_nodes.
Qed.

Lemma split_nodes_other v k (args : gmap string pyval) :
  k ≠ "node_lon" -> k ≠ "node_lat" -> split_nodes v args !! k = args !! k.
Proof.
  intros H1 H2. unfold split_nodes. cbn [node_attrs fst snd].
  by rewrite !lookup_insert_ne.
Qed.

Lemma str_in_node_attrs n :
  str_in n [node_attrs.1; node_attrs.2] = true -> n = "node_lon" \/ n = "node_lat".
Proof. intros H%str_in_spec. set_unfold. naive_solver. Qed.

Lemma base_keys_topology_node_loop items vars (args args' : gmap string pyval) :
  base_keys_only args -> topology_node_loop items vars args = Ok args' ->
  base_keys_only args'.
Proof.
  revert args. induction items as [| [n v] items IH]; intros args Hargs;
    cbn [topology_node_loop].
  - by intros [= <-].
  - destruct (str_in n [node_attrs.1; node_attrs.2]) eqn:Hn.
    + destruct (dict_getitem vars v) as [var | e]; cbn [mbind result_bind]; [| done].
      assert (Ha1 : base_keys_only (<[n := VArr (var_data var)]> args)).
      { apply base_keys_insert; [| done]. right. by apply str_in_node_attrs. }
      destruct (str_in n composite_node_names).
      * destruct (dict_getitem vars n) as [var' | e]; cbn [mbind result_bind];
          [| done].
        destruct (reshape_m1_2 (var_data var')) as [v' | e];
          cbn [mbind result_bind]; [| done].
        apply IH. by apply base_keys_split_nodes.
      * cbn [mbind result_bind]. by apply IH.
    + cbn [mbind result_bind]. destruct (str_in n composite_node_names).
      * destruct (dict_getitem vars n) as [var' | e]; cbn [mbind result_bind];
          [| done].
        destruct (reshape_m1_2 (var_data var')) as [v' | e];
          cbn [mbind result_bind]; [| done].
        apply IH. by apply base_keys_split_nodes.
      * cbn [mbind result_bind]. by apply IH.
Qed.

Lemma base_vars filename ds grid_topology args gf_vars :
  Grid__find_required_grid_attrs nc_open filename (Some ds) grid_topology
    = Ok (args, gf_vars) ->
  gf_vars = variables ds.
Proof.
  unfold Grid__find_required_grid_attrs. cbn [mbind result_bind].
  destruct grid_topology as [topo |].
  - destruct (topology_node_loop _ _ _); cbn [mbind result_bind]; [| done].
    by intros [= _ <-].
  - destruct (_ : result (gmap string pyval)); cbn [mbind result_bind]; [| done].
    case_bool_decide; [| done]. by intros [= _ <-].
Qed.


Lemma base_result_keys_only filename dataset grid_topology args gf_vars :
  Grid__find_required_grid_attrs nc_open filename dataset grid_topology
    = Ok (args, gf_vars) ->
  base_keys_only args.
Proof.
  unfold Grid__find_required_grid_attrs.
  destruct (match dataset with Some d => _ | None => _ end) as [vars | e];
    cbn [mbind result_bind]; [| done].
  set (a0 := <["filename" := filename]> (∅ : gmap string pyval)).
  assert (H0 : base_keys_only a0).
  { apply base_keys_insert; [by left | by intros k _ _ _]. }
  destruct grid_topology as [topo |].
  - destruct (topology_node_loop topo vars a0) as [a1 | e] eqn:Hloop;
      cbn [mbind result_bind]; [| done].
    intros [= <- <-]. by apply (base_keys_topology_node_loop topo vars a0).
  - set (a1 := find_coord_pair node_coord_names node_attrs vars a0).
    assert (H1 : base_keys_only a1) by by apply base_keys_find_coord_pair.
    case_bool_decide; cbn [mbind result_bind].
    + case_bool_decide; [| done]. by intros [= <- <-].
    + destruct (find_composite composite_node_names vars a1) as [a2 | e] eqn:Hc;
        cbn [mbind result_bind]; [| done].
      case_bool_decide; [| done]. intros [= <- <-].
      by apply (base_keys_find_composite composite_node_names vars a1).
Qed.

Lemma base_result_filename filename dataset grid_topology args gf_vars :
  Grid__find_required_grid_attrs nc_open filename dataset grid_topology
    = Ok (args, gf_vars) ->
  args !! "filename" = Some filename.
Proof.
  unfold Grid__find_required_grid_attrs.
  destruct (match dataset with Some d => _ | None => _ end) as [vars | e];
    cbn [mbind result_bind]; [| done].
  set (a0 := <["filename" := filename]> (∅ : gmap string pyval)).
  assert (H0 : base_keys_only a0).
  { apply base_keys_insert; [by left | by intros k _ _ _]. }
  assert (Hfile : forall a : gmap string pyval,
            a !! "filename" = Some filename ->
            forall k v, k ≠ "filename" -> <[k := v]> a !! "filename" = Some filename).
  { intros a Ha k v Hk. by rewrite lookup_insert_ne. }
  destruct grid_topology as [topo |].
  - destruct (topology_node_loop topo vars a0) as [a1 | e] eqn:Hloop;
      cbn [mbind result_bind]; [| done].
    intros [= <- <-].
    clear H0. assert (Ha0 : a0 !! "filename" = Some filename) by apply lookup_insert_eq.
    revert Hloop Ha0. generalize a0. clear a0.
    induction topo as [| [n v] topo IH]; intros a Hloop Ha;
      cbn [topology_node_loop] in Hloop.
    + by injection Hloop as <-.
    + destruct (str_in n [node_attrs.1; node_attrs.2]) eqn:Hn.
      * destruct (dict_getitem vars v) as [var | e]; cbn [mbind result_bind] in Hloop;
          [| done].
        assert (Ha' : <[n := VArr (var_data var)]> a !! "filename" = Some filename).
        { apply Hfile; [done |]. by destruct (str_in_node_attrs n Hn) as [-> | ->]. }
        destruct (str_in n composite_node_names).
        -- destruct (dict_getitem vars n) as [var' | e];
             cbn [mbind result_bind] in Hloop; [| done].
           destruct (reshape_m1_2 (var_data var')) as [v' | e];
             cbn [mbind result_bind] in Hloop; [| done].
           apply (IH _ Hloop). by rewrite split_nodes_other.
        -- cbn [mbind result_bind] in Hloop. by apply (IH _ Hloop).
      * cbn [mbind result_bind] in Hloop. destruct (str_in n composite_node_names).
        -- destruct (dict_getitem vars n) as [var' | e];
             cbn [mbind result_bind] in Hloop; [| done].
           destruct (reshape_m1_2 (var_data var')) as [v' | e];
             cbn [mbind result_bind] in Hloop; [| done].
           apply (IH _ Hloop). by rewrite split_nodes_other.
        -- cbn [mbind result_bind] in Hloop. by apply (IH _ Hloop).
  - set (a1 := find_coord_pair node_coord_names node_attrs vars a0).
    assert (H1 : base_keys_only a1) by by apply base_keys_find_coord_pair.
    assert (Hf1 : a1 !! "filename" = Some filename).
    { unfold a1. generalize node_coord_names. intros names.
      induction names as [| [n1 n2] names IH]; cbn [find_coord_pair];
        [apply lookup_insert_eq |].
      destruct (dict_get vars n1); [| done]. destruct (dict_get vars n2); [| done].
      cbn [node_attrs fst snd]. rewrite !lookup_insert_ne by done.
      apply lookup_insert_eq. }
    case_bool_decide; cbn [mbind result_bind].
    + case_bool_decide; [| done]. by intros [= <- <-].
    + destruct (find_composite composite_node_names vars a1) as [a2 | e] eqn:Hc;
        cbn [mbind result_bind]; [| done].
      case_bool_decide; [| done]. intros [= <- <-].
      revert Hc. unfold composite_node_names. cbn [find_composite].
      repeat (destruct (dict_get vars _) as [var |];
        [ destruct (reshape_m1_2 (var_data var)); cbn [mbind result_bind];
          [intros [= <-]; by rewrite split_nodes_other | done] |]).
      by intros [= <-].
Qed.

(** X4: whatever the dataset and the mapping, the arguments found by the
    base search hold the file name they were given and, besides it, nothing
    but [node_lon] and [node_lat]. *)
Theorem base_search_keys filename dataset grid_topology args gf_vars :
  Grid__find_required_grid_attrs nc_open filename dataset grid_topology
    = Ok (args, gf_vars) ->
  args !! "filename" = Some filename /\
  forall k, k ≠ "filename" -> k ≠ "node_lon" -> k ≠ "node_lat" -> args !! k = None.
Proof.
  intros Hbase. split.
  - by apply (base_result_filename _ _ _ _ _ Hbase).
  - intros k H1 H2 H3. by apply (base_result_keys_only _ _ _ _ _ Hbase).
Qed.

(** ** Faces of the unstructured grid *)

Lemma find_faces_spec names vars (args : gmap string pyval) :
  (Forall (fun n => n ≫= dict_get vars = None) names /\
   find_faces names vars args = args) \/
  (exists n var, n ∈ names /\ n ≫= dict_get vars = Some var /\
     find_faces names vars args = <["faces" := VArr (var_data var)]> args).
Proof.
  induction names as [| n names IH]; cbn [find_faces].
  - left. by split.
  - destruct (n ≫= dict_get vars) as [var |] eqn:Hn.
    + right. exists n, var. split; [apply elem_of_cons; by left | done].
    + destruct IH as [[Hall Heq] | (n' & var & Hin & Hget & Heq)].
      * left. split; [by constructor | done].
      * right. exists n', var. split; [apply elem_of_cons; by right | done].
Qed.

(** The unstructured search after a successful base search. *)
Lemma Grid_U_after_base filename dataset grid_topology args gf_vars :
  Grid__find_required_grid_attrs nc_open filename dataset grid_topology
    = Ok (args, gf_vars) ->
  let names := match grid_topology with
               | Some topo => [dict_get topo "faces"]
               | None => [Some "faces"; Some "tris"; Some "nv"; Some "ele"]
               end in
  (Forall (fun n => n ≫= dict_get gf_vars = None) names /\
   Grid_U__find_required_grid_attrs nc_open filename dataset grid_topology =
     Raise (ValueError "Unable to find faces variable")) \/
  (exists n var, n ∈ names /\ n ≫= dict_get gf_vars = Some var /\
     Grid_U__find_required_grid_attrs nc_open filename dataset grid_topology =
       (d ← shape0 (var_data var);
        if (d =? 3)%nat
        then Ok (<["faces" := VArr (sub_scalar (transpose (var_data var)) 1)]> args,
                 gf_vars)
        else Ok (<["faces" := VArr (var_data var)]> args, gf_vars))).
Proof.
  intros Hbase names.
  pose proof (base_result_keys_only _ _ _ _ _ Hbase) as Hkeys.
  unfold Grid_U__find_required_grid_attrs. rewrite Hbase. cbn [mbind result_bind].
  fold names.
  destruct (find_faces_spec names gf_vars args)
    as [[Hall Heq] | (n & var & Hin & Hget & Heq)]; rewrite Heq.
  - left. split; [done |]. by rewrite Hkeys.
  - right. exists n, var. split; [done |]. split; [done |].
    rewrite lookup_insert_eq. by rewrite insert_insert_eq.
Qed.

(** X5: when the node coordinates are found but, without a mapping, the
    dataset has none of the variables faces, tris, nv, ele, the unstructured
    search raises "Unable to find faces variable". *)
Theorem faces_not_found filename ds args gf_vars :
  Grid__find_required_grid_attrs nc_open filename (Some ds) None = Ok (args, gf_vars) ->
  first_present ["faces"; "tris"; "nv"; "ele"] (variables ds) = None ->
  Grid_U__find_required_grid_attrs nc_open filename (Some ds) None =
    Raise (ValueError "Unable to find faces variable").
Proof.
  intros Hbase Hnone.
  pose proof (base_vars _ _ _ _ _ Hbase) as ->.
  destruct (Grid_U_after_base _ _ _ _ _ Hbase)
    as [[_ Hr] | (n & var & Hin & Hget & _)]; [done |].
  exfalso. revert Hnone. cbn [first_present].
  set_unfold. destruct Hin as [-> | [-> | [-> | [-> | []]]]];
    cbn [mbind option_bind] in Hget;
    repeat (destruct (dict_get (variables ds) _); try done).
Qed.

(** X6: with a topology mapping the faces are looked up under the mapped
    name only.  The unstructured search succeeds only if the mapping has an
    entry faces and that entry names a variable of the dataset; the usual
    names faces, tris, nv, ele are not tried. *)
Theorem mapped_faces_only filename ds topo args gf_vars :
  Grid_U__find_required_grid_attrs nc_open filename (Some ds) (Some topo)
    = Ok (args, gf_vars) ->
  exists v var, dict_get topo "faces" = Some v /\
                dict_get (variables ds) v = Some var.
Proof.
  intros Hok.
  destruct (Grid__find_required_grid_attrs nc_open filename (Some ds) (Some topo))
    as [[args0 vars0] | e] eqn:Hbase.
  - pose proof (base_vars _ _ _ _ _ Hbase) as ->.
    destruct (Grid_U_after_base _ _ _ _ _ Hbase)
      as [[_ Hr] | (n & var & Hin & Hget & _)]; [congruence |].
    apply list_elem_of_singleton in Hin as ->.
    destruct (dict_get topo "faces") as [v |]; [| done].
    by exists v, var.
  - unfold Grid_U__find_required_grid_attrs in Hok. by rewrite Hbase in Hok.
Qed.

(** X7: whenever the unstructured search succeeds, its result holds an
    array under faces, and every other entry is the one of the base search. *)
Theorem unstructured_result_has_faces filename dataset grid_topology args gf_vars :
  Grid_U__find_required_grid_attrs nc_open filename dataset grid_topology
    = Ok (args, gf_vars) ->
  (exists f, args !! "faces" = Some (VArr f)) /\
  exists args0,
    Grid__find_required_grid_attrs nc_open filename dataset grid_topology
      = Ok (args0, gf_vars) /\
    forall k, k ≠ "faces" -> args !! k = args0 !! k.
Proof.
  intros Hok.
  destruct (Grid__find_required_grid_attrs nc_open filename dataset grid_topology)
    as [[args0 vars0] | e] eqn:Hbase.
  - destruct (Grid_U_after_base _ _ _ _ _ Hbase)
      as [[_ Hr] | (n & var & Hin & Hget & Hr)]; [congruence |].
    rewrite Hr in Hok. destruct (shape0 (var_data var)) as [d | e];
      cbn [mbind result_bind] in Hok; [| done].
    destruct (d =? 3)%nat; injection Hok as <- <-.
    + split; [eexists; apply lookup_insert_eq |]. exists args0. split; [done |].
      intros k Hk. by rewrite lookup_insert_ne.
    + split; [eexists; apply lookup_insert_eq |]. exists args0. split; [done |].
      intros k Hk. by rewrite lookup_insert_ne.
  - unfold Grid_U__find_required_grid_attrs in Hok. by rewrite Hbase in Hok.
Qed.

(** ** Resolution by the contents of the dataset *)

Lemma Grid_U_with_first_face filename ds args gf_vars var :
  Grid__find_required_grid_attrs nc_open filename (Some ds) None = Ok (args, gf_vars) ->
  first_present ["faces"; "tris"; "nv"; "ele"] (variables ds) = Some var ->
  Grid_U__find_required_grid_attrs nc_open filename (Some ds) None =
    (d ← shape0 (var_data var);
     if (d =? 3)%nat
     then Ok (<["faces" := VArr (sub_scalar (transpose (var_data var)) 1)]> args,
              gf_vars)
     else Ok (<["faces" := VArr (var_data var)]> args, gf_vars)).
Proof.
  intros Hbase Hvar. pose proof (base_vars _ _ _ _ _ Hbase) as ->.
  unfold Grid_U__find_required_grid_attrs. rewrite Hbase. cbn [mbind result_bind].
  rewrite (find_faces_first_present ["faces"; "tris"; "nv"; "ele"]), Hvar.
  rewrite lookup_insert_eq. by rewrite insert_insert_eq.
Qed.

Lemma base_raises_ValueError filename ds e :
  Grid__find_required_grid_attrs nc_open filename (Some ds) None = Raise e ->
  exists msg, e = ValueError msg.
Proof.
  unfold Grid__find_required_grid_attrs. cbn [mbind result_bind].
  case_bool_decide; cbn [mbind result_bind].
  - by case_bool_decide.
  - destruct (find_composite _ _ _) as [a | e'] eqn:Hc; cbn [mbind result_bind].
    + case_bool_decide; [done |]. intros [= <-]. by eexists.
    + intros [= <-]. revert Hc. unfold composite_node_names.
      cbn [find_composite]. unfold reshape_m1_2.
      repeat (destruct (dict_get (variables ds) _) as [var |];
        [ destruct (_ =? _)%nat; cbn [mbind result_bind]; [done |];
          intros [= <-]; by eexists |]).
      done.
Qed.

(** X8: with no type, no mapping and no alias in the dataset attribute, the
    class follows the variables: once the node coordinates are found, a
    variable faces, tris, nv or ele (holding an array of at least one
    dimension) gives [Grid_U], and a dataset with none of them gives
    [Grid_S]. *)
Theorem class_follows_face_variable ds args gf_vars :
  (forall gt, ds_attrs ds !! "grid_type" = Some (VStr gt) ->
              gt ∉ (sgrid_names ++ ugrid_names)%list) ->
  Grid__find_required_grid_attrs nc_open VNone (Some ds) None = Ok (args, gf_vars) ->
  (forall var,
     first_present ["faces"; "tris"; "nv"; "ele"] (variables ds) = Some var ->
     shape (var_data var) ≠ [] ->
     Grid__get_grid_type nc_open ds None None = Ok Grid_U) /\
  (first_present ["faces"; "tris"; "nv"; "ele"] (variables ds) = None ->
     Grid__get_grid_type nc_open ds None None = Ok Grid_S).
Proof.
  intros Hattr%no_known_attribute Hbase. split.
  - intros var Hvar Hshape. rewrite fallback_only by done.
    rewrite (Grid_U_with_first_face _ _ _ _ _ Hbase Hvar).
    unfold shape0. destruct (shape (var_data var)) as [| d rest]; [done |].
    cbn [mbind result_bind]. by destruct (d =? 3)%nat.
  - intros Hnone. rewrite fallback_only by done.
    pose proof (base_vars _ _ _ _ _ Hbase) as ->.
    unfold Grid_U__find_required_grid_attrs, Grid_S__find_required_grid_attrs.
    rewrite Hbase. cbn [mbind result_bind].
    rewrite (find_faces_first_present ["faces"; "tris"; "nv"; "ele"]), Hnone.
    by rewrite (base_result_keys_only _ _ _ _ _ Hbase).
Qed.

(** X9: in the same situation, when the node coordinates are not found the
    resolution fails with the error of the base search: the second attempt,
    as a structured grid, runs the same search again. *)
Theorem resolution_fails_without_nodes ds e :
  (forall gt, ds_attrs ds !! "grid_type" = Some (VStr gt) ->
              gt ∉ (sgrid_names ++ ugrid_names)%list) ->
  Grid__find_required_grid_attrs nc_open VNone (Some ds) None = Raise e ->
  Grid__get_grid_type nc_open ds None None = Raise e.
Proof.
  intros Hattr%no_known_attribute Hbase. rewrite fallback_only by done.
  destruct (base_raises_ValueError _ _ _ Hbase) as [msg ->].
  unfold Grid_U__find_required_grid_attrs, Grid_S__find_required_grid_attrs.
  by rewrite Hbase.
Qed.

(** X10: a face variable holding a scalar makes the unstructured search
    raise [IndexError], and the resolution by contents lets this error
    through instead of trying the structured grid. *)
Theorem scalar_faces_raise_index_error ds args gf_vars var :
  (forall gt, ds_attrs ds !! "grid_type" = Some (VStr gt) ->
              gt ∉ (sgrid_names ++ ugrid_names)%list) ->
  Grid__find_required_grid_attrs nc_open VNone (Some ds) None = Ok (args, gf_vars) ->
  first_present ["faces"; "tris"; "nv"; "ele"] (variables ds) = Some var ->
  shape (var_data var) = [] ->
  Grid_U__find_required_grid_attrs nc_open VNone (Some ds) None =
    Raise (IndexError "tuple index out of range") /\
  Grid__get_grid_type nc_open ds None None =
    Raise (IndexError "tuple index out of range").
Proof.
  intros Hattr%no_known_attribute Hbase Hvar Hshape.
  assert (HU : Grid_U__find_required_grid_attrs nc_open VNone (Some ds) None =
               Raise (IndexError "tuple index out of range")).
  { rewrite (Grid_U_with_first_face _ _ _ _ _ Hbase Hvar).
    unfold shape0. by rewrite Hshape. }
  split; [done |]. rewrite fallback_only by done. by rewrite HU.
Qed.

(** ** The structured grid *)

Lemma find_coord_pair_other names attr vars k (args : gmap string pyval) :
  k ≠ attr.1 -> k ≠ attr.2 ->
  find_coord_pair names attr vars args !! k = args !! k.
Proof.
  intros H1 H2. induction names as [| [n1 n2] names IH]; cbn [find_coord_pair];
    [done |].
  destruct (dict_get vars n1); [| done]. destruct (dict_get vars n2); [| done].
  by rewrite !lookup_insert_ne.
Qed.

Lemma find_coord_pair_lookup names lon lat vars (args : gmap string pyval) :
  lon ≠ lat ->
  find_coord_pair names (lon, lat) vars args !! lon =
    match first_complete_pair names vars with
    | Some p => Some (VArr (var_data p.1))
    | None => args !! lon
    end /\
  find_coord_pair names (lon, lat) vars args !! lat =
    match first_complete_pair names vars with
    | Some p => Some (VArr (var_data p.2))
    | None => args !! lat
    end.
Proof.
  intros Hne. induction names as [| [n1 n2] names IH];
    cbn [find_coord_pair first_complete_pair]; [done |].
  destruct (dict_get vars n1); [| done]. destruct (dict_get vars n2); [| done].
  cbn [fst snd]. split; [| apply lookup_insert_eq].
  rewrite lookup_insert_ne by done. apply lookup_insert_eq.
Qed.

Lemma topology_structured_loop_other items vars k (args : gmap string pyval) :
  str_in k structured_attrs = false ->
  topology_structured_loop items vars args !! k = args !! k.
Proof.
  intros Hk. revert args. induction items as [| [n v] items IH]; intros args;
    cbn [topology_structured_loop]; [done |].
  rewrite IH. destruct (str_in n structured_attrs) eqn:Hn; [| done].
  destruct (dict_get vars v); [| done].
  rewrite lookup_insert_ne; [done |]. intros ->. congruence.
Qed.

Lemma topology_structured_loop_absent items vars k (args : gmap string pyval) :
  k ∉ items.*1 ->
  topology_structured_loop items vars args !! k = args !! k.
Proof.
  revert args. induction items as [| [n v] items IH]; intros args Hk;
    cbn [topology_structured_loop]; [done |].
  apply not_elem_of_cons in Hk as [Hne Hk]. rewrite IH by done.
  destruct (str_in n structured_attrs); [| done].
  destruct (dict_get vars v); [| done]. by rewrite lookup_insert_ne.
Qed.

Lemma Grid_S_without_mapping filename dataset args0 gf_vars :
  Grid__find_required_grid_attrs nc_open filename dataset None = Ok (args0, gf_vars) ->
  Grid_S__find_required_grid_attrs nc_open filename dataset None =
    Ok (find_coord_pair [("edge2_lon", "edge2_lat"); ("lon_v", "lat_v")]
          ("edge2_lon", "edge2_lat") gf_vars
          (find_coord_pair [("edge1_lon", "edge1_lat"); ("lon_u", "lat_u")]
             ("edge1_lon", "edge1_lat") gf_vars
             (find_coord_pair [("center_lon", "center_lat"); ("lon_rho", "lat_rho")]
                ("center_lon", "center_lat") gf_vars args0)), gf_vars).
Proof.
  intros Hbase. unfold Grid_S__find_required_grid_attrs. by rewrite Hbase.
Qed.

(** X11: the structured search adds nothing that can fail.  It raises
    exactly the error of the base search when that fails, and otherwise
    returns the file name and the node coordinates of the base search
    unchanged, and never an entry faces. *)
Theorem structured_search_optional filename dataset grid_topology :
  match Grid__find_required_grid_attrs nc_open filename dataset grid_topology with
  | Raise e =>
      Grid_S__find_required_grid_attrs nc_open filename dataset grid_topology
        = Raise e
  | Ok (args0, gf_vars) =>
      exists args,
        Grid_S__find_required_grid_attrs nc_open filename dataset grid_topology
          = Ok (args, gf_vars) /\
        args !! "filename" = args0 !! "filename" /\
        args !! "node_lon" = args0 !! "node_lon" /\
        args !! "node_lat" = args0 !! "node_lat" /\
        args !! "faces" = None
  end.
Proof.
  destruct (Grid__find_required_grid_attrs nc_open filename dataset grid_topology)
    as [[args0 vars] | e] eqn:Hbase;
    unfold Grid_S__find_required_grid_attrs; rewrite Hbase;
    cbn [mbind result_bind]; [| done].
  pose proof (base_result_keys_only _ _ _ _ _ Hbase) as Hkeys.
  destruct grid_topology as [topo |].
  - eexists. split; [done |].
    rewrite !topology_structured_loop_other by done.
    repeat (split; [done |]). by apply Hkeys.
  - eexists. split; [done |]. unfold structured_coord_names. cbn [fold_left].
    rewrite !find_coord_pair_other by done.
    repeat (split; [done |]). by apply Hkeys.
Qed.

(** X12: without a mapping the structured search binds the center from the
    first complete pair of center_lon/center_lat and lon_rho/lat_rho, the
    first edge from edge1_lon/edge1_lat and lon_u/lat_u, the second edge
    from edge2_lon/edge2_lat and lon_v/lat_v, and leaves out the coordinates
    for which no pair is complete. *)
Theorem structured_coordinates_by_convention filename ds args gf_vars :
  Grid_S__find_required_grid_attrs nc_open filename (Some ds) None
    = Ok (args, gf_vars) ->
  let bound (lon lat : string) (names : list (string * string)) :=
    args !! lon =
      (fun p => VArr (var_data p.1)) <$> first_complete_pair names (variables ds) /\
    args !! lat =
      (fun p => VArr (var_data p.2)) <$> first_complete_pair names (variables ds) in
  bound "center_lon" "center_lat" [("center_lon", "center_lat"); ("lon_rho", "lat_rho")] /\
  bound "edge1_lon" "edge1_lat" [("edge1_lon", "edge1_lat"); ("lon_u", "lat_u")] /\
  bound "edge2_lon" "edge2_lat" [("edge2_lon", "edge2_lat"); ("lon_v", "lat_v")].
Proof.
  intros Hok.
  destruct (Grid__find_required_grid_attrs nc_open filename (Some ds) None)
    as [[args0 vars] | e] eqn:Hbase;
    [| unfold Grid_S__find_required_grid_attrs in Hok; by rewrite Hbase in Hok].
  pose proof (base_result_keys_only _ _ _ _ _ Hbase) as Hkeys.
  pose proof (base_vars _ _ _ _ _ Hbase) as ->.
  rewrite (Grid_S_without_mapping _ _ _ _ Hbase) in Hok.
  assert (Hargs : args =
    find_coord_pair [("edge2_lon", "edge2_lat"); ("lon_v", "lat_v")]
      ("edge2_lon", "edge2_lat") (variables ds)
      (find_coord_pair [("edge1_lon", "edge1_lat"); ("lon_u", "lat_u")]
         ("edge1_lon", "edge1_lat") (variables ds)
         (find_coord_pair [("center_lon", "center_lat"); ("lon_rho", "lat_rho")]
            ("center_lon", "center_lat") (variables ds) args0))) by congruence.
  rewrite Hargs. clear Hok Hargs. cbv zeta. repeat split.
  all: rewrite ?find_coord_pair_other by done.
  all: match goal with
       | |- context [find_coord_pair ?names (?lon, ?lat) ?vars ?a !! ?k] =>
           first
             [ unify k lon;
               rewrite (proj1 (find_coord_pair_lookup names lon lat vars a ltac:(done)))
             | unify k lat;
               rewrite (proj2 (find_coord_pair_lookup names lon lat vars a ltac:(done))) ]
       end.
  all: rewrite ?find_coord_pair_other by done.
  all: destruct (first_complete_pair _ _) as [[v1 v2] |]; [done |].
  all: by apply Hkeys.
Qed.

(** ** Topology mappings *)

Lemma dict_get_absent {V : Type} (d : list (string * V)) (k : string) :
  k ∉ d.*1 -> dict_get d k = None.
Proof.
  intros Hk. destruct (dict_get d k) eqn:E; [| done].
  exfalso. apply Hk, dict_get_is_Some. by eexists.
Qed.

Lemma mapped_array_cons_eq n v rest vars :
  mapped_array ((n, v) :: rest) vars n =
  var ← dict_get vars v; Some (VArr (var_data var)).
Proof. unfold mapped_array. cbn [dict_get]. by rewrite String.eqb_refl. Qed.

Lemma mapped_array_cons_ne n n' v rest vars :
  n ≠ n' -> mapped_array ((n', v) :: rest) vars n = mapped_array rest vars n.
Proof.
  intros Hne. unfold mapped_array. cbn [dict_get].
  by rewrite (proj2 (String.eqb_neq n n') Hne).
Qed.

Lemma mapped_array_absent n topo vars :
  n ∉ topo.*1 -> mapped_array topo vars n = None.
Proof. intros H. unfold mapped_array. by rewrite dict_get_absent. Qed.

Lemma topology_structured_loop_lookup items vars n (args : gmap string pyval) :
  NoDup items.*1 -> str_in n structured_attrs = true ->
  topology_structured_loop items vars args !! n =
    match mapped_array items vars n with
    | Some x => Some x
    | None => args !! n
    end.
Proof.
  intros Hnd Hn. revert args. induction items as [| [n' v] items IH]; intros args;
    cbn [topology_structured_loop]; [done |].
  apply NoDup_cons in Hnd as [Hnotin Hnd]. cbn [fst] in Hnotin.
  destruct (decide (n = n')) as [<- | Hne].
  - rewrite topology_structured_loop_absent by done.
    rewrite mapped_array_cons_eq, Hn.
    destruct (dict_get vars v); [apply lookup_insert_eq | done].
  - rewrite IH by done. rewrite mapped_array_cons_ne by done.
    destruct (mapped_array items vars n); [done |].
    destruct (str_in n' structured_attrs); [| done].
    destruct (dict_get vars v); [| done]. by rewrite lookup_insert_ne.
Qed.

(** X13: with a topology mapping (a dict, so without repeated keys) the
    structured search binds a center or edge coordinate to the array of the
    mapped variable when the mapping has the entry and the dataset has the
    variable; an entry naming a variable the dataset lacks is passed over
    without an error. *)
Theorem structured_mapping_tolerant filename ds topo args gf_vars n :
  NoDup topo.*1 ->
  Grid_S__find_required_grid_attrs nc_open filename (Some ds) (Some topo)
    = Ok (args, gf_vars) ->
  n ∈ structured_attrs ->
  args !! n = mapped_array topo (variables ds) n.
Proof.
  intros Hnd Hok Hn%str_in_spec.
  destruct (Grid__find_required_grid_attrs nc_open filename (Some ds) (Some topo))
    as [[args0 vars] | e] eqn:Hbase;
    unfold Grid_S__find_required_grid_attrs in Hok; rewrite Hbase in Hok;
    cbn [mbind result_bind] in Hok; [| done].
  pose proof (base_result_keys_only _ _ _ _ _ Hbase) as Hkeys.
  pose proof (base_vars _ _ _ _ _ Hbase) as ->.
  assert (Hargs : args = topology_structured_loop topo (variables ds) args0)
    by congruence.
  rewrite Hargs, topology_structured_loop_lookup by done.
  destruct (mapped_array topo (variables ds) n); [done |].
  apply Hkeys; intros ->; by vm_compute in Hn.
Qed.

(** X14: the base search with a mapping succeeds only if every variable it
    reads exists: the mapped variable for an entry node_lon or node_lat, and
    for an entry nodes or node the dataset variable of that very name. *)
Theorem mapped_node_variables_required filename ds topo args gf_vars n v :
  Grid__find_required_grid_attrs nc_open filename (Some ds) (Some topo)
    = Ok (args, gf_vars) ->
  (n, v) ∈ topo ->
  (n ∈ ["node_lon"; "node_lat"] -> is_Some (dict_get (variables ds) v)) /\
  (n ∈ ["nodes"; "node"] -> is_Some (dict_get (variables ds) n)).
Proof.
  unfold Grid__find_required_grid_attrs. cbn [mbind result_bind].
  destruct (topology_node_loop topo (variables ds) _) as [a1 | e] eqn:Hloop;
    cbn [mbind result_bind]; [| done].
  intros _ Hin. revert Hloop. generalize (<["filename" := filename]> (∅ : gmap string pyval)).
  induction topo as [| [n' v'] topo IH]; intros a Hloop;
    [by apply elem_of_nil in Hin |].
  cbn [topology_node_loop] in Hloop.
  destruct (str_in n' [node_attrs.1; node_attrs.2]) eqn:Hn1;
    [destruct (dict_getitem (variables ds) v') as [var | e] eqn:Hv';
       cbn [mbind result_bind] in Hloop; [| done] |
     cbn [mbind result_bind] in Hloop];
    (destruct (str_in n' composite_node_names) eqn:Hn2;
      [destruct (dict_getitem (variables ds) n') as [var' | e] eqn:Hvn;
         cbn [mbind result_bind] in Hloop; [| done];
       destruct (reshape_m1_2 (var_data var')) as [v2 | e];
         cbn [mbind result_bind] in Hloop; [| done] |
       cbn [mbind result_bind] in Hloop]);
    (apply elem_of_cons in Hin as [[= -> ->] | Hin]; [| by apply (IH Hin _ Hloop)]).
  all: split; intros Hmem%str_in_spec.
  all: try (unfold dict_getitem in Hv';
            destruct (dict_get (variables ds) v'); [by eexists | done]).
  all: try (unfold dict_getitem in Hvn;
            destruct (dict_get (variables ds) n'); [by eexists | done]).
  all: unfold composite_node_names, node_attrs in *; cbn [fst snd] in *; congruence.
Qed.

Lemma topology_node_loop_lookup items vars n (args args' : gmap string pyval) :
  NoDup items.*1 -> "nodes" ∉ items.*1 -> "node" ∉ items.*1 ->
  topology_node_loop items vars args = Ok args' ->
  n = "node_lon" \/ n = "node_lat" ->
  args' !! n =
    match mapped_array items vars n with
    | Some x => Some x
    | None => args !! n
    end.
Proof.
  intros Hnd Hc1 Hc2 Hloop Hn. revert args Hloop.
  induction items as [| [n' v] items IH]; intros args Hloop;
    cbn [topology_node_loop] in Hloop; [by injection Hloop as <- |].
  apply NoDup_cons in Hnd as [Hnotin Hnd]. cbn [fst] in Hnotin.
  apply not_elem_of_cons in Hc1 as [Hc1 Hc1'].
  apply not_elem_of_cons in Hc2 as [Hc2 Hc2']. cbn [fst] in Hc1, Hc2.
  assert (Hcomp : str_in n' composite_node_names = false).
  { apply str_in_false. unfold composite_node_names. set_unfold. naive_solver. }
  rewrite Hcomp in Hloop.
  destruct (str_in n' [node_attrs.1; node_attrs.2]) eqn:Hn1.
  - destruct (dict_getitem vars v) as [var | e] eqn:Hv;
      cbn [mbind result_bind] in Hloop; [| done].
    unfold dict_getitem in Hv. destruct (dict_get vars v) as [var0 |] eqn:Hv0;
      [injection Hv as -> | done].
    rewrite (IH Hnd Hc1' Hc2' _ Hloop).
    destruct (decide (n = n')) as [<- | Hne].
    + rewrite mapped_array_absent by done.
      rewrite mapped_array_cons_eq, Hv0. apply lookup_insert_eq.
    + rewrite mapped_array_cons_ne by done.
      destruct (mapped_array items vars n); [done |]. by rewrite lookup_insert_ne.
  - cbn [mbind result_bind] in Hloop. rewrite (IH Hnd Hc1' Hc2' _ Hloop).
    assert (Hne : n ≠ n').
    { intros <-. destruct Hn as [-> | ->]; by vm_compute in Hn1. }
    by rewrite mapped_array_cons_ne.
Qed.

(** X15: with a mapping (a dict) that has no entry nodes or node, a
    successful base search binds [node_lon] and [node_lat] to the arrays of
    the variables the mapping names for them, and leaves out the one the
    mapping does not name. *)
Theorem mapped_node_arrays filename ds topo args gf_vars :
  NoDup topo.*1 -> "nodes" ∉ topo.*1 -> "node" ∉ topo.*1 ->
  Grid__find_required_grid_attrs nc_open filename (Some ds) (Some topo)
    = Ok (args, gf_vars) ->
  args !! "node_lon" = mapped_array topo (variables ds) "node_lon" /\
  args !! "node_lat" = mapped_array topo (variables ds) "node_lat".
Proof.
  intros Hnd Hc1 Hc2. unfold Grid__find_required_grid_attrs.
  cbn [mbind result_bind].
  destruct (topology_node_loop topo (variables ds) _) as [a1 | e] eqn:Hloop;
    cbn [mbind result_bind]; [| done].
  intros [= <- <-].
  rewrite (topology_node_loop_lookup _ _ "node_lon" _ _ Hnd Hc1 Hc2 Hloop) by (by left).
  rewrite (topology_node_loop_lookup _ _ "node_lat" _ _ Hnd Hc1 Hc2 Hloop) by (by right).
  split; by destruct (mapped_array topo (variables ds) _).
Qed.

(** ** Loading a grid *)

Lemma Grid_U_result_other filename dataset grid_topology args gf_vars :
  Grid_U__find_required_grid_attrs nc_open filename dataset grid_topology
    = Ok (args, gf_vars) ->
  exists args0,
    Grid__find_required_grid_attrs nc_open filename dataset grid_topology
      = Ok (args0, gf_vars) /\
    forall k, k ≠ "faces" -> args !! k = args0 !! k.
Proof.
  intros Hok.
  destruct (Grid__find_required_grid_attrs nc_open filename dataset grid_topology)
    as [[args0 vars0] | e] eqn:Hbase;
    [| unfold Grid_U__find_required_grid_attrs in Hok; by rewrite Hbase in Hok].
  destruct (Grid_U_after_base _ _ _ _ _ Hbase)
    as [[_ Hr] | (n & var & Hin & Hget & Hr)]; [congruence |].
  rewrite Hr in Hok. destruct (shape0 (var_data var)) as [d | e];
    cbn [mbind result_bind] in Hok; [| done].
  exists args0.
  destruct (d =? 3)%nat; injection Hok as <- <-; (split; [done |]);
    intros k Hk; by rewrite lookup_insert_ne.
Qed.

Lemma Grid_S_result_other filename dataset grid_topology args gf_vars :
  Grid_S__find_required_grid_attrs nc_open filename dataset grid_topology
    = Ok (args, gf_vars) ->
  exists args0,
    Grid__find_required_grid_attrs nc_open filename dataset grid_topology
      = Ok (args0, gf_vars) /\
    forall k, str_in k structured_attrs = false -> args !! k = args0 !! k.
Proof.
  intros Hok.
  destruct (Grid__find_required_grid_attrs nc_open filename dataset grid_topology)
    as [[args0 vars0] | e] eqn:Hbase;
    [| unfold Grid_S__find_required_grid_attrs in Hok; by rewrite Hbase in Hok].
  exists args0. destruct grid_topology as [topo |].
  - unfold Grid_S__find_required_grid_attrs in Hok. rewrite Hbase in Hok.
    cbn [mbind result_bind] in Hok.
    assert (args = topology_structured_loop topo vars0 args0 /\ gf_vars = vars0)
      as [-> ->] by (split; congruence).
    split; [done |]. intros k Hk. by rewrite topology_structured_loop_other.
  - rewrite (Grid_S_without_mapping _ _ _ _ Hbase) in Hok.
    assert (args =
      find_coord_pair [("edge2_lon", "edge2_lat"); ("lon_v", "lat_v")]
        ("edge2_lon", "edge2_lat") vars0
        (find_coord_pair [("edge1_lon", "edge1_lat"); ("lon_u", "lat_u")]
           ("edge1_lon", "edge1_lat") vars0
           (find_coord_pair [("center_lon", "center_lat"); ("lon_rho", "lat_rho")]
              ("center_lon", "center_lat") vars0 args0)) /\ gf_vars = vars0)
      as [-> ->] by (split; congruence).
    split; [done |]. intros k Hk.
    assert (Hk' : forall x, x ∈ structured_attrs -> k ≠ x).
    { intros x Hx <-. apply str_in_spec in Hx. congruence. }
    rewrite !find_coord_pair_other; [done | ..];
      cbn [fst snd]; apply Hk', str_in_spec; reflexivity.
Qed.

(** The arguments handed to the constructor: the file name, and no name. *)
Lemma extraction_args cls filename dataset grid_topology init_args gf_vars :
  find_required_grid_attrs_of nc_open cls filename dataset grid_topology
    = Ok (init_args, gf_vars) ->
  init_args !! "filename" = Some filename /\ init_args !! "name" = None.
Proof.
  destruct cls; cbn [find_required_grid_attrs_of]; intros Hok.
  - destruct (Grid_U_result_other _ _ _ _ _ Hok) as (args0 & Hbase & Hother).
    rewrite !Hother by done. split.
    + by apply (base_result_filename _ _ _ _ _ Hbase).
    + by apply (base_result_keys_only _ _ _ _ _ Hbase).
  - destruct (Grid_S_result_other _ _ _ _ _ Hok) as (args0 & Hbase & Hother).
    rewrite !Hother by done. split.
    + by apply (base_result_filename _ _ _ _ _ Hbase).
    + by apply (base_result_keys_only _ _ _ _ _ Hbase).
Qed.

Lemma Grid__init__result st cls init_args g st' :
  Grid__init__ base_init st cls init_args = Ok (g, st') ->
  init_args !! "name" = None ->
  obj_class g = cls /\ obj_addr g = next_addr st /\
  next_addr st' = S (next_addr st) /\
  def_count st' cls = S (def_count st cls) /\
  (forall c, c ≠ cls -> def_count st' c = def_count st c) /\
  obj_attrs g !! "filename" = Some (default VNone (init_args !! "filename")) /\
  obj_attrs g !! "name" =
    Some (VStr (class_name cls +:+ "_" +:+ pretty (def_count st cls))).
Proof.
  unfold Grid__init__. destruct (base_init cls _) as [attrs | e];
    cbn [mbind result_bind]; [| done].
  intros [= <- <-] Hname. rewrite lookup_delete_ne, Hname by done.
  cbn [obj_class obj_addr obj_attrs].
  split; [done |]. split; [done |]. split; [by destruct cls |].
  split; [by destruct cls |]. split; [by intros [] Hc; destruct cls |].
  split; [apply lookup_insert_eq |].
  rewrite !lookup_insert_ne by done. apply lookup_insert_eq.
Qed.

Lemma Grid__new__keywords cls (kwargs : gmap string pyval) :
  kwargs ≠ ∅ -> Grid__new__ cls kwargs = Raise keywords_refused.
Proof. intros H. unfold Grid__new__. by rewrite bool_decide_false. Qed.

Lemma Grid__new__bare cls : Grid__new__ cls ∅ = Ok (default Grid_S cls).
Proof. by destruct cls. Qed.

Lemma extraction_not_empty cls filename dataset grid_topology init_args gf_vars :
  find_required_grid_attrs_of nc_open cls filename dataset grid_topology
    = Ok (init_args, gf_vars) ->
  init_args ≠ ∅.
Proof.
  intros [Hfile _]%extraction_args ->. by rewrite lookup_empty in Hfile.
Qed.

(** The load goes wrong at the latest when the class is called. *)
Lemma from_netCDF_raises st filename dataset grid_type grid_topology :
  exists e,
    Grid_from_netCDF nc_open base_init st filename dataset grid_type grid_topology
      = Raise e.
Proof.
  unfold Grid_from_netCDF.
  destruct (match filename with VNone => _ | _ => _ end) as [gf | e];
    cbn [mbind result_bind]; [| by eexists].
  destruct (Grid__get_grid_type nc_open gf grid_topology grid_type) as [cls | e];
    cbn [mbind result_bind]; [| by eexists].
  destruct (find_required_grid_attrs_of nc_open cls filename dataset grid_topology)
    as [[init_args gf_vars] | e] eqn:Hargs; cbn [mbind result_bind]; [| by eexists].
  unfold Grid_call.
  rewrite Grid__new__keywords by (by eapply extraction_not_empty).
  by eexists.
Qed.

(** X16: [from_netCDF] never returns a grid.  When the class is resolved
    and its arguments are found, the call of the class hands them as
    keywords to [object.__new__], which raises [TypeError]; the arguments
    always hold the file name, so they are never empty. *)
Theorem load_never_returns st filename dataset grid_type grid_topology :
  (exists e,
     Grid_from_netCDF nc_open base_init st filename dataset grid_type grid_topology
       = Raise e) /\
  (forall ds cls init_args gf_vars,
     dataset = Some ds ->
     Grid__get_grid_type nc_open ds grid_topology grid_type = Ok cls ->
     find_required_grid_attrs_of nc_open cls filename dataset grid_topology
       = Ok (init_args, gf_vars) ->
     Grid_from_netCDF nc_open base_init st filename dataset grid_type grid_topology
       = Raise keywords_refused).
Proof.
  split; [apply from_netCDF_raises |].
  intros ds cls init_args gf_vars -> Hcls Hargs. unfold Grid_from_netCDF.
  replace (match filename with VNone => _ | _ => get_dataset nc_open filename (Some ds) end)
    with (Ok ds : result NcDataset) by (by destruct filename).
  cbn [mbind result_bind]. rewrite Hcls. cbn [mbind result_bind].
  rewrite Hargs. cbn [mbind result_bind]. unfold Grid_call.
  by rewrite Grid__new__keywords by (by eapply extraction_not_empty).
Qed.

Lemma default_name_inj cls1 cls2 (n1 n2 : nat) :
  class_name cls1 +:+ "_" +:+ pretty n1 = class_name cls2 +:+ "_" +:+ pretty n2 ->
  cls1 = cls2 /\ n1 = n2.
Proof.
  destruct cls1, cls2; cbn; intros [= H]; split; try done;
    by apply (inj pretty).
Qed.

(** X17: two grids built one after the other by calls without keywords
    never share their identity or their default name. *)
Theorem successive_constructions_differ st cls1 cls2 g1 st1 g2 st2 :
  Grid_call base_init st cls1 ∅ = Ok (g1, st1) ->
  Grid_call base_init st1 cls2 ∅ = Ok (g2, st2) ->
  obj_addr g1 ≠ obj_addr g2 /\
  obj_attrs g1 !! "name" ≠ obj_attrs g2 !! "name".
Proof.
  unfold Grid_call. rewrite !Grid__new__bare. cbn [mbind result_bind].
  intros Hinit Hinit'.
  destruct (Grid__init__result _ _ _ _ _ Hinit (lookup_empty _))
    as (_ & Haddr & Hnext & Hcount & _ & _ & Hn).
  destruct (Grid__init__result _ _ _ _ _ Hinit' (lookup_empty _))
    as (_ & Haddr' & _ & _ & _ & _ & Hn').
  split; [lia |]. rewrite Hn, Hn'. intros [= Heq].
  apply default_name_inj in Heq as [Hcls Heq]. rewrite <- Hcls in Heq. lia.
Qed.

(** X18: the dataset takes precedence over the file name.  When a dataset
    is passed, no file is opened: the outcome is the same over every file
    system, also one without any file. *)
Theorem dataset_takes_precedence nc_open' st filename ds grid_type grid_topology :
  Grid_from_netCDF nc_open base_init st filename (Some ds) grid_type grid_topology =
  Grid_from_netCDF nc_open' base_init st filename (Some ds) grid_type grid_topology.
Proof.
  assert (Hbase : forall f t,
    Grid__find_required_grid_attrs nc_open f (Some ds) t =
    Grid__find_required_grid_attrs nc_open' f (Some ds) t) by done.
  assert (HU : forall f t,
    Grid_U__find_required_grid_attrs nc_open f (Some ds) t =
    Grid_U__find_required_grid_attrs nc_open' f (Some ds) t).
  { intros f t. unfold Grid_U__find_required_grid_attrs. by rewrite Hbase. }
  assert (HS : forall f t,
    Grid_S__find_required_grid_attrs nc_open f (Some ds) t =
    Grid_S__find_required_grid_attrs nc_open' f (Some ds) t).
  { intros f t. unfold Grid_S__find_required_grid_attrs. by rewrite Hbase. }
  assert (Htype : Grid__get_grid_type nc_open ds grid_topology grid_type =
                  Grid__get_grid_type nc_open' ds grid_topology grid_type).
  { unfold Grid__get_grid_type. rewrite !find_topology_var_None.
    by rewrite HU, HS. }
  unfold Grid_from_netCDF.
  replace (match filename with VNone => _ | _ => get_dataset nc_open filename (Some ds) end)
    with (Ok ds : result NcDataset) by (by destruct filename).
  replace (match filename with VNone => _ | _ => get_dataset nc_open' filename (Some ds) end)
    with (Ok ds : result NcDataset) by (by destruct filename).
  cbn [mbind result_bind]. rewrite Htype.
  destruct (Grid__get_grid_type nc_open' ds grid_topology grid_type) as [[] | e];
    cbn [mbind result_bind find_required_grid_attrs_of]; by rewrite ?HU, ?HS.
Qed.

(** ** Reconstruction from a saved dict, continued *)


(** ** Direct construction and the dataset facade *)

(** X20: a grid class called without keywords builds an instance of it, of
    [Grid_S] when the class is [Grid] itself, whenever the base class does:
    with the next free identity, no file name, and the default name made of
    the class name and the counter of that class; that counter goes up by
    one and the counter of the other class stays. *)
Theorem keywordless_call_record st cls g st' :
  Grid_call base_init st cls ∅ = Ok (g, st') ->
  obj_class g = default Grid_S cls /\
  obj_addr g = next_addr st /\ next_addr st' = S (next_addr st) /\
  obj_attrs g !! "filename" = Some VNone /\
  obj_attrs g !! "name" =
    Some (VStr (class_name (obj_class g) +:+ "_" +:+
                pretty (def_count st (obj_class g)))) /\
  def_count st' (obj_class g) = S (def_count st (obj_class g)) /\
  (forall c, c ≠ obj_class g -> def_count st' c = def_count st c).
Proof.
  unfold Grid_call. rewrite Grid__new__bare. cbn [mbind result_bind].
  intros Hinit.
  destruct (Grid__init__result _ _ _ _ _ Hinit (lookup_empty _))
    as (-> & Haddr & Hnext & Hcount & Hothers & Hf & Hn).
  by rewrite lookup_empty in Hf.
Qed.

(** X21: a grid class called with any keyword raises [TypeError] in
    [__new__], before [__init__] runs; the arguments of every successful
    search do, whatever the class that is called with them. *)
Theorem keywords_raise_type_error st cls :
  (forall kwargs : gmap string pyval,
     kwargs ≠ ∅ -> Grid_call base_init st cls kwargs = Raise keywords_refused) /\
  (forall c filename dataset grid_topology init_args gf_vars,
     find_required_grid_attrs_of nc_open c filename dataset grid_topology
       = Ok (init_args, gf_vars) ->
     Grid_call base_init st cls init_args = Raise keywords_refused).
Proof.
  assert (H : forall kwargs : gmap string pyval,
            kwargs ≠ ∅ -> Grid_call base_init st cls kwargs = Raise keywords_refused).
  { intros kwargs Hne. unfold Grid_call. by rewrite Grid__new__keywords. }
  split; [done |].
  intros c filename dataset grid_topology init_args gf_vars Hargs.
  by eapply H, extraction_not_empty.
Qed.

Variable VarObj : Type.
Variable Variable_ : NcDataset -> string -> result VarObj.
Variable find_variables : NcDataset -> pyval -> result (list string).

(** X22: a dataset is never built from a file.  Whatever the grid argument,
    the constructor raises: the error of opening the file, or the error of
    [from_netCDF], which never returns. *)
Theorem dataset_from_file_never_built st ncfile grid variables grid_topology :
  ncfile ≠ VNone ->
  (exists e,
     Dataset__init__ nc_open base_init VarObj Variable_ find_variables
       st ncfile grid variables grid_topology = Raise e) /\
  (forall nc e,
     nc_open ncfile = Ok nc ->
     Grid_from_netCDF nc_open base_init st VNone (Some nc) None grid_topology
       = Raise e ->
     Dataset__init__ nc_open base_init VarObj Variable_ find_variables
       st ncfile grid variables grid_topology = Raise e).
Proof.
  intros Hfile.
  assert (Hrun : Dataset__init__ nc_open base_init VarObj Variable_ find_variables
                   st ncfile grid variables grid_topology =
                 (nc ← nc_open ncfile;
                  e ← Grid_from_netCDF nc_open base_init st VNone (Some nc) None
                        grid_topology;
                  Raise (KeyError ""))).
  { unfold Dataset__init__, get_dataset. destruct ncfile; try done;
      destruct (nc_open _) as [nc |]; cbn [mbind result_bind]; try done;
      by destruct (from_netCDF_raises st VNone (Some nc) None grid_topology)
        as [e ->]. }
  split.
  - rewrite Hrun. destruct (nc_open ncfile) as [nc |];
      cbn [mbind result_bind]; [| by eexists].
    destruct (from_netCDF_raises st VNone (Some nc) None grid_topology) as [e ->].
    by eexists.
  - intros nc e Hnc Hload. rewrite Hrun, Hnc. cbn [mbind result_bind].
    by rewrite Hload.
Qed.

End FurtherProperties.

(** * The further properties at sample inputs *)

Lemma no_attribute (ds : NcDataset) :
  ds_attrs ds = ∅ ->
  forall gt, ds_attrs ds !! "grid_type" = Some (VStr gt) ->
             gt ∉ (sgrid_names ++ ugrid_names)%list.
Proof. intros -> gt H. by rewrite lookup_empty in H. Defined.

(** A structured grid without nodes and faces sits between two unequal
    unstructured grids. *)
Lemma grid_equality_not_transitive_witness :
  Grid__eq__ grid_a sgrid_a = Ok true /\ Grid__eq__ sgrid_a grid_b = Ok true /\
  Grid__eq__ grid_a grid_b ≠ Ok true.
Proof.
  apply (grid_equality_not_transitive grid_a sgrid_a grid_b).
  - left. vm_compute. reflexivity.
  - left. vm_compute. reflexivity.
  - vm_compute. reflexivity.
Defined.

(** The attribute ugrid decides for a dataset without any face variable. *)
Lemma dataset_attribute_decides_witness :
  Grid__get_grid_type no_file (ds_typed "ugrid") None None = Ok Grid_U.
Proof.
  apply (proj1 (dataset_attribute_decides no_file (ds_typed "ugrid") "ugrid" eq_refl)).
  apply str_in_spec. reflexivity.
Defined.

Lemma base_search_keys_witness :
  tri_args !! "filename" = Some VNone /\
  forall k, k ≠ "filename" -> k ≠ "node_lon" -> k ≠ "node_lat" -> tri_args !! k = None.
Proof.
  apply (base_search_keys no_file VNone (Some ds_tri) None tri_args (variables ds_tri)).
  vm_compute. reflexivity.
Defined.

Lemma faces_not_found_witness :
  Grid_U__find_required_grid_attrs no_file VNone (Some ds_lonlat) None =
    Raise (ValueError "Unable to find faces variable").
Proof.
  apply (faces_not_found no_file VNone ds_lonlat tri_args (variables ds_lonlat)).
  - vm_compute. reflexivity.
  - reflexivity.
Defined.

Lemma mapped_faces_only_witness :
  exists v var, dict_get [("faces", "nv")] "faces" = Some v /\
                dict_get (variables ds_nv_only) v = Some var.
Proof.
  eapply (mapped_faces_only no_file VNone ds_nv_only [("faces", "nv")]).
  vm_compute. reflexivity.
Defined.

Lemma unstructured_result_has_faces_witness :
  exists args,
    Grid_U__find_required_grid_attrs no_file VNone (Some ds_tri) None
      = Ok (args, variables ds_tri) /\
    (exists f, args !! "faces" = Some (VArr f)) /\
    args !! "node_lon" = Some (VArr (arr_1d [10; 20; 30])).
Proof.
  assert (Hrun : exists args,
    Grid_U__find_required_grid_attrs no_file VNone (Some ds_tri) None
      = Ok (args, variables ds_tri)).
  { vm_compute. eexists. reflexivity. }
  destruct Hrun as [args Hrun]. exists args. split; [exact Hrun |].
  destruct (unstructured_result_has_faces no_file VNone (Some ds_tri) None args
              (variables ds_tri) Hrun) as [Hf (args0 & Hbase & Hother)].
  split; [exact Hf |]. rewrite Hother by discriminate.
  vm_compute in Hbase. injection Hbase as <-. vm_compute. reflexivity.
Defined.

Lemma class_follows_face_variable_witness :
  Grid__get_grid_type no_file ds_tri None None = Ok Grid_U.
Proof.
  refine (proj1 (class_follows_face_variable no_file ds_tri tri_args (variables ds_tri)
                   (no_attribute ds_tri eq_refl) _)
                (plain_var (arr_2d 3 2 [1; 2; 2; 3; 3; 1])) eq_refl _).
  - vm_compute. reflexivity.
  - discriminate.
Defined.

Lemma resolution_fails_without_nodes_witness :
  Grid__get_grid_type no_file ds_nv_only None None =
    Raise (ValueError "Unable to find node coordinates.").
Proof.
  apply (resolution_fails_without_nodes no_file ds_nv_only _
           (no_attribute ds_nv_only eq_refl)).
  vm_compute. reflexivity.
Defined.

Lemma scalar_faces_raise_index_error_witness :
  Grid_U__find_required_grid_attrs no_file VNone (Some ds_scalar_nv) None =
    Raise (IndexError "tuple index out of range") /\
  Grid__get_grid_type no_file ds_scalar_nv None None =
    Raise (IndexError "tuple index out of range").
Proof.
  apply (scalar_faces_raise_index_error no_file ds_scalar_nv tri_args
           (variables ds_scalar_nv) (plain_var {| dtype := int32; shape := []; data := [7] |})
           (no_attribute ds_scalar_nv eq_refl)).
  - vm_compute. reflexivity.
  - reflexivity.
  - reflexivity.
Defined.

(** In [ds_roms] the center comes from the rho points, the first edge from
    the u points, and there is no second edge. *)
Lemma structured_coordinates_by_convention_witness :
  exists args,
    Grid_S__find_required_grid_attrs no_file VNone (Some ds_roms) None
      = Ok (args, variables ds_roms) /\
    args !! "center_lon" = Some (VArr (arr_2d 1 2 [5; 6])) /\
    args !! "edge1_lat" = Some (VArr (arr_2d 1 2 [11; 12])) /\
    args !! "edge2_lon" = None.
Proof.
  assert (Hrun : exists args,
    Grid_S__find_required_grid_attrs no_file VNone (Some ds_roms) None
      = Ok (args, variables ds_roms)).
  { vm_compute. eexists. reflexivity. }
  destruct Hrun as [args Hrun]. exists args. split; [exact Hrun |].
  destruct (structured_coordinates_by_convention no_file VNone ds_roms args
              (variables ds_roms) Hrun)
    as ([Hc _] & [_ He1] & [He2 _]).
  rewrite Hc, He1, He2. repeat split.
Defined.

(** Over [ds_roms] the mapping [topo_roms] binds the center longitude and
    passes over the center latitude, whose variable does not exist. *)
Lemma structured_mapping_tolerant_witness :
  exists args,
    Grid_S__find_required_grid_attrs no_file VNone (Some ds_roms) (Some topo_roms)
      = Ok (args, variables ds_roms) /\
    args !! "center_lon" = Some (VArr (arr_2d 1 2 [5; 6])) /\
    args !! "center_lat" = None.
Proof.
  assert (Hrun : exists args,
    Grid_S__find_required_grid_attrs no_file VNone (Some ds_roms) (Some topo_roms)
      = Ok (args, variables ds_roms)).
  { vm_compute. eexists. reflexivity. }
  destruct Hrun as [args Hrun]. exists args. split; [exact Hrun |].
  assert (Hnd : NoDup topo_roms.*1).
  { compute_done. }
  split.
  - rewrite (structured_mapping_tolerant no_file VNone ds_roms topo_roms args
               (variables ds_roms) "center_lon" Hnd Hrun).
    + reflexivity.
    + apply str_in_spec. reflexivity.
  - rewrite (structured_mapping_tolerant no_file VNone ds_roms topo_roms args
               (variables ds_roms) "center_lat" Hnd Hrun).
    + reflexivity.
    + apply str_in_spec. reflexivity.
Defined.

Lemma mapped_node_variables_required_witness :
  is_Some (dict_get (variables ds_roms) "lon_psi").
Proof.
  assert (Hin : ("node_lon", "lon_psi") ∈ topo_roms) by (apply elem_of_cons; by left).
  assert (Hn : "node_lon" ∈ ["node_lon"; "node_lat"]) by (apply elem_of_cons; by left).
  refine (proj1 (mapped_node_variables_required no_file VNone ds_roms topo_roms
                   _ _ "node_lon" "lon_psi" _ Hin) Hn).
  vm_compute. reflexivity.
Defined.

Lemma mapped_node_arrays_witness :
  exists args,
    Grid__find_required_grid_attrs no_file VNone (Some ds_roms) (Some topo_roms)
      = Ok (args, variables ds_roms) /\
    args !! "node_lon" = Some (VArr (arr_2d 1 2 [1; 2])) /\
    args !! "node_lat" = Some (VArr (arr_2d 1 2 [3; 4])).
Proof.
  assert (Hrun : exists args,
    Grid__find_required_grid_attrs no_file VNone (Some ds_roms) (Some topo_roms)
      = Ok (args, variables ds_roms)).
  { vm_compute. eexists. reflexivity. }
  destruct Hrun as [args Hrun]. exists args. split; [exact Hrun |].
  assert (Hnd : NoDup topo_roms.*1).
  { compute_done. }
  assert (H1 : "nodes" ∉ topo_roms.*1).
  { compute_done. }
  assert (H2 : "node" ∉ topo_roms.*1).
  { compute_done. }
  destruct (mapped_node_arrays no_file VNone ds_roms topo_roms args
              (variables ds_roms) Hnd H1 H2 Hrun) as [-> ->].
  split; reflexivity.
Defined.

(** The class of [ds_tri] is resolved and its arguments are found, and the
    load still raises. *)
Lemma load_never_returns_witness :
  Grid__get_grid_type no_file ds_tri None None = Ok Grid_U /\
  (exists init_args,
     Grid_U__find_required_grid_attrs no_file VNone (Some ds_tri) None
       = Ok (init_args, variables ds_tri)) /\
  Grid_from_netCDF no_file keep_kwargs st0 VNone (Some ds_tri) None None
    = Raise keywords_refused.
Proof.
  assert (Hcls : Grid__get_grid_type no_file ds_tri None None = Ok Grid_U).
  { vm_compute. reflexivity. }
  assert (Hargs : exists init_args,
    find_required_grid_attrs_of no_file Grid_U VNone (Some ds_tri) None
      = Ok (init_args, variables ds_tri)).
  { vm_compute. eexists. reflexivity. }
  destruct Hargs as [init_args Hargs].
  split; [exact Hcls |]. split; [exists init_args; exact Hargs |].
  exact (proj2 (load_never_returns no_file keep_kwargs st0 VNone (Some ds_tri) None None)
               ds_tri Grid_U init_args (variables ds_tri) eq_refl Hcls Hargs).
Defined.

(** [Grid()] and then [Grid_U()]. *)
Lemma successive_constructions_differ_witness :
  exists g1 st1 g2 st2,
    Grid_call keep_kwargs st0 None ∅ = Ok (g1, st1) /\
    Grid_call keep_kwargs st1 (Some Grid_U) ∅ = Ok (g2, st2) /\
    obj_addr g1 ≠ obj_addr g2 /\ obj_attrs g1 !! "name" ≠ obj_attrs g2 !! "name".
Proof.
  assert (Hrun : exists g1 st1 g2 st2,
    Grid_call keep_kwargs st0 None ∅ = Ok (g1, st1) /\
    Grid_call keep_kwargs st1 (Some Grid_U) ∅ = Ok (g2, st2)).
  { vm_compute. eexists _, _, _, _. split; reflexivity. }
  destruct Hrun as (g1 & st1 & g2 & st2 & H1 & H2). exists g1, st1, g2, st2.
  split; [exact H1 |]. split; [exact H2 |].
  exact (successive_constructions_differ keep_kwargs st0 None (Some Grid_U)
           g1 st1 g2 st2 H1 H2).
Defined.

(** [Grid()] in the first state builds the structured grid Grid_S_0. *)
Lemma keywordless_call_record_witness :
  exists g st',
    Grid_call keep_kwargs st0 None ∅ = Ok (g, st') /\
    obj_class g = Grid_S /\
    obj_attrs g !! "name" = Some (VStr "Grid_S_0") /\
    obj_attrs g !! "filename" = Some VNone /\
    def_count st' Grid_S = 1%nat.
Proof.
  assert (Hrun : exists g st', Grid_call keep_kwargs st0 None ∅ = Ok (g, st')).
  { vm_compute. eexists _, _. reflexivity. }
  destruct Hrun as (g & st' & Hrun). exists g, st'.
  destruct (keywordless_call_record keep_kwargs st0 None g st' Hrun)
    as (Hcls & _ & _ & Hf & Hn & Hc & _).
  rewrite Hcls in Hn, Hc.
  split; [exact Hrun |]. split; [exact Hcls |]. split; [exact Hn |].
  split; [exact Hf | exact Hc].
Defined.

(** [Grid_U] called with the arguments found in [ds_tri]. *)
Lemma keywords_raise_type_error_witness :
  tri_args ≠ ∅ /\
  Grid_call keep_kwargs st0 (Some Grid_U) tri_args = Raise keywords_refused.
Proof.
  assert (Hne : tri_args ≠ ∅).
  { intros H. apply (f_equal (fun m : gmap string pyval => m !! "filename")) in H.
    vm_compute in H. discriminate H. }
  split; [exact Hne |].
  exact (proj1 (keywords_raise_type_error no_file keep_kwargs st0 (Some Grid_U))
               tri_args Hne).
Defined.

(** The file grid.nc opens, and the dataset is not built, with or without a
    grid argument. *)
Lemma dataset_from_file_never_built_witness :
  Dataset__init__ one_file keep_kwargs string name_wrapper lon_lat_found
    st0 (VStr "grid.nc") (Some grid_mesh) None None = Raise keywords_refused.
Proof.
  refine (proj2 (dataset_from_file_never_built one_file keep_kwargs string name_wrapper
                   lon_lat_found st0 (VStr "grid.nc") (Some grid_mesh) None None _)
                ds_tri keywords_refused eq_refl _).
  - discriminate.
  - vm_compute. reflexivity.
Defined.
